(** * Gemini title generator: extraction, oracle response handling, rename

    A shallow embedding of the two [generateTitle] variants of the plugin
    (the TextRank based one of [src/main.ts] and the older first-K-sentences
    one), of [updateNoteTitle] and of the handlers that call them (the
    command, the two menu items, the change of the active leaf and the
    startup run), with the properties the specification states about them
    and the ones the code shows besides.

    JavaScript strings are sequences of UTF-16 code units: a string is a
    [list N] here, and every string operation of the source ([trim],
    [split], [join], [substring], [replace], [RegExp.test]) is written out
    on that representation. *)

From Stdlib Require Import Ascii String.
From Stdlib Require Import List Bool NArith ZArith QArith Lia Sorted.
From Stdlib Require DecimalString.
Import ListNotations.

Local Open Scope N_scope.

(* ================================================================== *)
(** ** JavaScript strings *)
(* ================================================================== *)

Module Js.

(** A UTF-16 code unit. *)
Definition char := N.

Definition jsstring := list char.

(** String literals of the source, written as Rocq strings of ASCII
    characters. *)
Definition lit (s : string) : jsstring :=
  List.map N_of_ascii (list_ascii_of_string s).

(** The double quote, which a literal above cannot hold. *)
Definition dquote : jsstring := [34].

Definition eqb (a b : jsstring) : bool :=
  if list_eq_dec N.eq_dec a b then true else false.

(** ECMAScript [LineTerminator]: LF, CR, LS, PS. *)
Definition isLineTerminator (c : char) : bool :=
  (c =? 10) || (c =? 13) || (c =? 8232) || (c =? 8233).

(** ECMAScript [WhiteSpace] together with [LineTerminator]: what
    [String.prototype.trim] strips and what [\s] matches. *)
Definition isWhiteSpace (c : char) : bool :=
  (c =? 9) || (c =? 11) || (c =? 12) || (c =? 32) || (c =? 160)
  || (c =? 5760) || ((8192 <=? c) && (c <=? 8202))
  || (c =? 8239) || (c =? 8287) || (c =? 12288) || (c =? 65279)
  || isLineTerminator c.

Fixpoint trimStart (s : jsstring) : jsstring :=
  match s with
  | c :: r => if isWhiteSpace c then trimStart r else s
  | [] => []
  end.

Definition trimEnd (s : jsstring) : jsstring :=
  rev (trimStart (rev s)).

(** [s.trim()] *)
Definition trim (s : jsstring) : jsstring := trimEnd (trimStart s).

(** Truthiness of a string: [!s] is [isEmpty s]. *)
Definition isEmpty (s : jsstring) : bool :=
  match s with [] => true | _ => false end.

(** [s.substring(0, n)] for a non-negative literal [n]. *)
Definition substring0 (n : nat) (s : jsstring) : jsstring := firstn n s.

(** [s.split(sep)] for a separator that is one code unit (a character, or
    a regular expression that is one character class): the pieces between
    the separators, a single empty piece for the empty string. *)
Fixpoint splitOn (sep : char -> bool) (s : jsstring) : list jsstring :=
  match s with
  | [] => [[]]
  | c :: r =>
      if sep c then [] :: splitOn sep r
      else match splitOn sep r with
           | p :: ps => (c :: p) :: ps
           | [] => [[c]]
           end
  end.

(** [s.split(/\s+/)]: the pieces between the maximal runs of white
    space. [inRun] says that the previous code unit was white space, [cur]
    is the piece being read, reversed. *)
Fixpoint splitRuns (inRun : bool) (cur : jsstring) (s : jsstring)
  : list jsstring :=
  match s with
  | [] => [rev cur]
  | c :: r =>
      if isWhiteSpace c then
        if inRun then splitRuns true [] r
        else rev cur :: splitRuns true [] r
      else splitRuns false (c :: cur) r
  end.

Definition splitWhiteSpace (s : jsstring) : list jsstring :=
  splitRuns false [] s.

(** [a.join(sep)] *)
Fixpoint join (sep : jsstring) (a : list jsstring) : jsstring :=
  match a with
  | [] => []
  | [x] => x
  | x :: r => x ++ sep ++ join sep r
  end.

(** The pieces with the marks between them: the first piece, the first
    mark, the second piece, and so on. *)
Fixpoint weave (pieces : list jsstring) (marks : jsstring) : jsstring :=
  match pieces, marks with
  | [], _ => []
  | p :: _, [] => p
  | p :: ps, m :: ms => p ++ m :: weave ps ms
  end.

(** [s.replace(/[class]/g, by)] *)
Definition replaceAll (class : char -> bool) (by_ : jsstring) (s : jsstring)
  : jsstring :=
  flat_map (fun c => if class c then by_ else [c]) s.

(** [a.slice(0, k)] on an array: a negative [k] counts from the end. *)
Definition slice0 {A} (k : Z) (a : list A) : list A :=
  if (k <? 0)%Z
  then firstn (Z.to_nat (Z.max (Z.of_nat (length a) + k) 0)) a
  else firstn (Z.to_nat k) a.

(** *** Regular expressions

    The fragment the source uses, matched by derivatives. A pattern
    between [^] and [$] (no flags) has to match the whole string. *)
Inductive regex :=
| Eps
| Class (p : char -> bool)
| Cat (r1 r2 : regex)
| Star (r : regex).

Fixpoint nullable (r : regex) : bool :=
  match r with
  | Eps => true
  | Class _ => false
  | Cat r1 r2 => nullable r1 && nullable r2
  | Star _ => true
  end.

Fixpoint partialDeriv (c : char) (r : regex) : list regex :=
  match r with
  | Eps => []
  | Class p => if p c then [Eps] else []
  | Cat r1 r2 =>
      List.map (fun d => Cat d r2) (partialDeriv c r1)
      ++ (if nullable r1 then partialDeriv c r2 else [])
  | Star r1 => List.map (fun d => Cat d (Star r1)) (partialDeriv c r1)
  end.

(** What it is for a string to match a pattern; [test] below decides
    it. *)
Inductive matches : regex -> jsstring -> Prop :=
| MEps : matches Eps []
| MClass (p : char -> bool) (c : char) :
    p c = true -> matches (Class p) [c]
| MCat (r1 r2 : regex) (s1 s2 : jsstring) :
    matches r1 s1 -> matches r2 s2 -> matches (Cat r1 r2) (s1 ++ s2)
| MStarNil (r : regex) : matches (Star r) []
| MStarApp (r : regex) (s1 s2 : jsstring) :
    matches r s1 -> matches (Star r) s2 -> matches (Star r) (s1 ++ s2).

(** The set of residual patterns after reading [s]. *)
Fixpoint residuals (rs : list regex) (s : jsstring) : list regex :=
  match s with
  | [] => rs
  | c :: r => residuals (flat_map (partialDeriv c) rs) r
  end.

(** [/^r$/.test(s)] *)
Definition test (r : regex) (s : jsstring) : bool :=
  existsb nullable (residuals [r] s).

Definition chr (c : char) : regex := Class (N.eqb c).

Fixpoint word (s : jsstring) : regex :=
  match s with
  | [] => Eps
  | c :: r => Cat (chr c) (word r)
  end.

(** [.] without the [s] flag: any code unit but a line terminator. *)
Definition dot : regex := Class (fun c => negb (isLineTerminator c)).

End Js.

Import Js.


(* ================================================================== *)
(** ** Effects: what the plugin does to its collaborators *)
(* ================================================================== *)

(** [TFile] of the host, with the fields the plugin reads; [parent] holds
    the parent folder's [path] when the file has a parent. *)
Record TFile := {
  path : jsstring;
  basename : jsstring;
  extension : jsstring;
  parent : option jsstring
}.

(** [Summarizer.SORT_OCCURENCE] and its alternative. *)
Inductive sortMode := SORT_OCCURENCE | SORT_SCORE.

(** The arguments [generateTitle] gives to [AbsoluteSummarizerConfig]
    (the similarity function, the parser and the logger are the library's
    own objects). *)
Record AbsoluteSummarizerConfig := {
  sentenceCount : Z;
  dampingFactor : Q;
  sortBy : sortMode
}.

(** Every call that leaves the plugin, in the order it is made. *)
Inductive event :=
| Notice (message : jsstring)
| Summarize (config : AbsoluteSummarizerConfig) (text : jsstring)
| GenerateContent (apiKey modelId prompt : jsstring)
| CachedRead (file : TFile)
| RenameFile (file : TFile) (newPath : jsstring).

(** How a block of statements completes. *)
Inductive completion (A : Type) :=
| Normal (a : A)
| Thrown.
Arguments Normal {A} a.
Arguments Thrown {A}.

(** A computation: the calls it made and how it completed. *)
Definition M (A : Type) : Type := list event * completion A.

Definition ret {A} (a : A) : M A := ([], Normal a).

Definition bind {A B} (m : M A) (k : A -> M B) : M B :=
  match m with
  | (log, Normal a) => let (log', c) := k a in (log ++ log', c)
  | (log, Thrown) => (log, Thrown)
  end.

(** [try { body } catch (e) { handler }] *)
Definition tryCatch {A} (body : M A) (handler : M A) : M A :=
  match body with
  | (log, Thrown) => let (log', c) := handler in (log ++ log', c)
  | done => done
  end.

Definition emit (e : event) : M unit := ([e], Normal tt).

(** [new Notice(message)] *)
Definition notice (message : jsstring) : M unit := emit (Notice message).

(** A call to a collaborator that returns [Some] result or throws. *)
Definition call {A} (e : event) (outcome : option A) : M A :=
  ([e], match outcome with Some a => Normal a | None => Thrown end).

Notation "x <- m ;; k" := (bind m (fun x => k))
  (at level 61, m at next level, right associativity).
Notation "m ;;; k" := (bind m (fun _ => k))
  (at level 61, right associativity).

Definition calls (A : Type) (m : M A) : list event := fst m.
Arguments calls {A} m.

Definition outcome (A : Type) (m : M A) : completion A := snd m.
Arguments outcome {A} m.

Definition isRename (e : event) : bool :=
  match e with RenameFile _ _ => true | _ => false end.

(* ================================================================== *)
(** ** JSON values and the collaborators' answers *)
(* ================================================================== *)

(** What [JSON.parse] returns. *)
#[warnings="-register-all"]
Inductive json :=
| JNull
| JBool (b : bool)
| JNumber (q : Q)
| JString (s : jsstring)
| JArray (items : list json)
| JObject (fields : list (jsstring * json)).

(** [!!j] *)
Definition truthy (j : json) : bool :=
  match j with
  | JNull => false
  | JBool b => b
  | JNumber q => negb (Qeq_bool q 0)
  | JString s => negb (isEmpty s)
  | JArray _ | JObject _ => true
  end.

Fixpoint assoc (key : jsstring) (fields : list (jsstring * json))
  : option json :=
  match fields with
  | [] => None
  | (k, v) :: r => if Js.eqb k key then Some v else assoc key r
  end.

(** [j.title] on a non-null value, [None] for [undefined]: only an object
    parsed from JSON can own the property. *)
Definition title (j : json) : option json :=
  match j with
  | JObject fields => assoc (lit "title") fields
  | _ => None
  end.

(** [result.response]: a response whose [text()] returns or throws. *)
Inductive response :=
| Text (responseText : jsstring)
| TextThrows.

(** What the plugin's collaborators answer. [None] is a call that throws;
    [generateContent] returns a result whose [response] may be missing.
    [newSummarizer] stands for the constructors of ts-textrank that
    [generateTitle] runs before it summarizes (the similarity function,
    the parser, the logger, [AbsoluteSummarizerConfig] and [Summarizer]):
    [None] when one of them throws, as the configuration does for a
    sentence count below 1. *)
Record Collaborators := {
  newSummarizer : AbsoluteSummarizerConfig -> option unit;
  summarize : AbsoluteSummarizerConfig -> jsstring -> option (option (list jsstring));
  generateContent : jsstring -> jsstring -> jsstring -> option (option response);
  JSON_parse : jsstring -> option json;
  cachedRead : TFile -> option jsstring;
  renameFile : TFile -> jsstring -> option unit
}.

Record GeminiTitleGeneratorSettings := {
  apiKey : jsstring;
  modelId : jsstring;
  numberOfSentences : Z;
  autoUpdateUntitledNotes : bool
}.

Definition DEFAULT_PLUGIN_SETTINGS : GeminiTitleGeneratorSettings := {|
  apiKey := [];
  modelId := lit "gemini-2.5-flash-preview-04-17";
  numberOfSentences := 8;
  autoUpdateUntitledNotes := false
|}.

(* ================================================================== *)
(** ** [src/main.ts] *)
(* ================================================================== *)

Module Main.

Section Plugin.

Variable host : Collaborators.
Variable settings : GeminiTitleGeneratorSettings.

(** [/^!\[\[.*]]$/] *)
Definition imageEmbeddingRegex : regex :=
  Cat (word (lit "![[")) (Cat (Star dot) (word (lit "]]"))).

Definition lines (noteContent : jsstring) : list jsstring :=
  splitOn (N.eqb 10) noteContent.

Definition filteredLines (noteContent : jsstring) : list jsstring :=
  filter (fun line => negb (test imageEmbeddingRegex (trim line)))
         (lines noteContent).

Definition processedNoteContent (noteContent : jsstring) : jsstring :=
  join [10] (filteredLines noteContent).

Definition config : AbsoluteSummarizerConfig := {|
  sentenceCount := numberOfSentences settings;
  dampingFactor := 85 # 100;
  sortBy := SORT_OCCURENCE
|}.

(** [processedNoteContent.trim() ? processedNoteContent.substring(0, 500)
    : noteContent.substring(0, 500)], the expression of both fallbacks. *)
Definition fallback (noteContent : jsstring) : jsstring :=
  if negb (isEmpty (trim (processedNoteContent noteContent)))
  then substring0 500 (processedNoteContent noteContent)
  else substring0 500 noteContent.

Definition msgNoKeySentences : jsstring :=
  lit "ts-textrank found no key sentences, using the first 500 characters of the note for context.".
Definition msgExtractionError : jsstring :=
  lit "Error during sentence extraction with ts-textrank. Using fallback. Check console.".
Definition msgNoApiKey : jsstring :=
  lit "Gemini API Key is not set. Please configure it in the plugin settings.".
Definition msgNoteEmpty : jsstring :=
  lit "Note is empty. Cannot generate title.".
Definition msgNoContent : jsstring :=
  lit "Could not extract any meaningful content from the note to generate a title.".
Definition msgInvalidTitle : jsstring :=
  lit "Failed to get a valid title from Gemini JSON response.".
Definition msgParseFailed : jsstring :=
  lit "Failed to parse Gemini JSON response for title.".
Definition msgNoResponse : jsstring :=
  lit "Failed to generate title from Gemini API. No response.".
Definition msgGenerationError : jsstring :=
  lit "Error generating title. Check console for details.".

(** Step 1 of [generateTitle], the inner [try]/[catch]: the value of
    [extractedSentences]. *)
Definition extractedSentences (noteContent : jsstring) : M jsstring :=
  tryCatch
    (([], match newSummarizer host config with
          | Some built => Normal built
          | None => Thrown
          end) ;;;
     summarySentences <-
       call (Summarize config (processedNoteContent noteContent))
            (summarize host config (processedNoteContent noteContent)) ;;
     match summarySentences with
     | Some ((_ :: _) as sentences) => ret (join (lit " ") sentences)
     | _ =>
         notice msgNoKeySentences ;;;
         ret (fallback noteContent)
     end)
    (notice msgExtractionError ;;;
     ret (fallback noteContent)).

Definition prompt (extracted : jsstring) : jsstring :=
  lit "Based on the following key sentences, provide a single, concise title for a note. The title should be 10 words or less. Key sentences: "
  ++ dquote ++ extracted ++ dquote.

(** [jsonResponse && jsonResponse.title &&
    typeof jsonResponse.title === 'string'], with the title when the
    test passes. *)
Definition validTitle (jsonResponse : json) : option jsstring :=
  if truthy jsonResponse then
    match title jsonResponse with
    | Some t =>
        if truthy t then
          match t with
          | JString s => Some s
          | _ => None
          end
        else None
    | None => None
    end
  else None.

(** Step 2 of [generateTitle], from [if (result.response)] on. *)
Definition readResponse (result : option response) : M (option jsstring) :=
  match result with
  | Some response =>
      responseText <-
        ([], match response with
             | Text t => Normal t
             | TextThrows => Thrown
             end) ;;
      tryCatch
        (jsonResponse <-
           ([], match JSON_parse host responseText with
                | Some j => Normal j
                | None => Thrown
                end) ;;
         match validTitle jsonResponse with
         | Some t => ret (Some (trim t))
         | None =>
             notice msgInvalidTitle ;;;
             ret None
         end)
        (notice msgParseFailed ;;;
         ret None)
  | None =>
      notice msgNoResponse ;;;
      ret None
  end.

Definition generateTitle (noteContent : jsstring) : M (option jsstring) :=
  if isEmpty (apiKey settings) then
    notice msgNoApiKey ;;;
    ret None
  else
    tryCatch
      (extracted <- extractedSentences noteContent ;;
       if isEmpty extracted || (length (trim extracted) =? 0)%nat then
         if (length (trim noteContent) =? 0)%nat then
           notice msgNoteEmpty ;;;
           ret None
         else
           notice msgNoContent ;;;
           ret None
       else
         result <-
           call (GenerateContent (apiKey settings) (modelId settings)
                                 (prompt extracted))
                (generateContent host (apiKey settings) (modelId settings)
                                 (prompt extracted)) ;;
         readResponse result)
      (notice msgGenerationError ;;;
       ret None).

(** The class of the first [replace]: backslash, slash, colon, star,
    question mark, double quote, angle brackets, bar. *)
Definition isForbidden (c : char) : bool :=
  (c =? 92) || (c =? 47) || (c =? 58) || (c =? 42) || (c =? 63)
  || (c =? 34) || (c =? 60) || (c =? 62) || (c =? 124).

(** The class of the second [replace]: LF and CR. *)
Definition isNewline (c : char) : bool := (c =? 10) || (c =? 13).

(** [sanitizedTitle]: [newTitle], its forbidden characters replaced by
    the empty string, then its newlines by a space, then trimmed. *)
Definition sanitizedTitle (newTitle : jsstring) : jsstring :=
  trim (replaceAll isNewline (lit " ")
          (replaceAll isForbidden [] newTitle)).

Definition parentPath (file : TFile) : jsstring :=
  match parent file with
  | Some p => p
  | None => []
  end.

Definition newPath (file : TFile) (newTitle : jsstring) : jsstring :=
  if negb (isEmpty (parentPath file))
  then parentPath file ++ lit "/" ++ sanitizedTitle newTitle ++ lit "."
       ++ extension file
  else sanitizedTitle newTitle ++ lit "." ++ extension file.

Definition msgTitleEmpty : jsstring :=
  lit "Generated title is empty. No changes made.".
Definition msgSanitizedEmpty : jsstring :=
  lit "Sanitized title is empty. No changes made.".
Definition msgAlready (sanitized : jsstring) : jsstring :=
  lit "Note title is already " ++ dquote ++ sanitized ++ dquote
  ++ lit ". No changes made.".
Definition msgUpdated (sanitized : jsstring) : jsstring :=
  lit "Note title updated to: " ++ dquote ++ sanitized ++ dquote.
Definition msgRenameError : jsstring :=
  lit "Error updating note title. Check console for details.".

Definition updateNoteTitle (file : TFile) (newTitle : jsstring) : M bool :=
  if isEmpty newTitle || Js.eqb (trim newTitle) [] then
    notice msgTitleEmpty ;;;
    ret false
  else if isEmpty (sanitizedTitle newTitle) then
    notice msgSanitizedEmpty ;;;
    ret false
  else if Js.eqb (path file) (newPath file newTitle) then
    notice (msgAlready (sanitizedTitle newTitle)) ;;;
    ret false
  else
    tryCatch
      (call (RenameFile file (newPath file newTitle))
            (renameFile host file (newPath file newTitle)) ;;;
       notice (msgUpdated (sanitizedTitle newTitle)) ;;;
       ret true)
      (notice msgRenameError ;;;
       ret false).

Definition msgFileEmpty (file : TFile) : jsstring :=
  lit "Note " ++ dquote ++ basename file ++ dquote
  ++ lit " is empty. Cannot generate title.".
Definition msgGenerating (file : TFile) : jsstring :=
  lit "Generating title for " ++ dquote ++ basename file ++ dquote
  ++ lit "...".
Definition msgFileError (file : TFile) : jsstring :=
  lit "Error processing file " ++ dquote ++ basename file ++ dquote
  ++ lit ". Check console.".

(** The [onClick] handler of the [file-menu] item. *)
Definition onClick (file : TFile) : M unit :=
  tryCatch
    (noteContent <- call (CachedRead file) (cachedRead host file) ;;
     if isEmpty (trim noteContent) then
       notice (msgFileEmpty file)
     else
       notice (msgGenerating file) ;;;
       generatedTitle <- generateTitle noteContent ;;
       match generatedTitle with
       | Some ((_ :: _) as t) =>
           updateNoteTitle file t ;;;
           ret tt
       | _ => ret tt
       end)
    (notice (msgFileError file)).

End Plugin.

End Main.

(* ================================================================== *)
(** ** The variant that takes the first sentences of the note *)
(* ================================================================== *)

Module FirstSentences.

Section Plugin.

Variable host : Collaborators.
Variable settings : GeminiTitleGeneratorSettings.

(** The class [[.?!]]. *)
Definition isTerminator (c : char) : bool :=
  (c =? 46) || (c =? 63) || (c =? 33).

(** [sentences] as the filter below reads it. The source assigns it
    twice: first the split by [sentenceEndRegex], the pattern with the
    abbreviation look-behind, then [noteContent.split(/[.?!]/g)], which
    replaces the first value before anything has read it. *)
Definition sentences (noteContent : jsstring) : list jsstring :=
  splitOn isTerminator noteContent.

Definition validSentences (noteContent : jsstring) : list jsstring :=
  filter (fun s => (3 <=? length (splitWhiteSpace s))%nat)
    (filter (fun s => (0 <? length s)%nat)
       (map trim (sentences noteContent))).

Definition sentencesToUse (noteContent : jsstring) : list jsstring :=
  slice0 (numberOfSentences settings) (validSentences noteContent).

Definition msgNoSentences : jsstring :=
  lit "No distinct sentences found, using the first 500 characters of the note for context.".
Definition msgNoContent : jsstring :=
  lit "Could not extract any content from the note to generate a title.".

(** Step 1 of [generateTitle]: the value of [extractedSentences], or
    [None] where the source returns [null] from inside the step. *)
Definition extractedSentences (noteContent : jsstring)
  : M (option jsstring) :=
  if (0 <? length (validSentences noteContent))%nat then
    ret (Some (join (lit ". ") (sentencesToUse noteContent)
               ++ (if (0 <? length (sentencesToUse noteContent))%nat
                   then lit "." else [])))
  else if (length (trim noteContent) =? 0)%nat then
    notice Main.msgNoteEmpty ;;;
    ret None
  else
    notice msgNoSentences ;;;
    ret (Some (substring0 500 noteContent)).

(** [console.log] and [console.error] are not notices and are left
    out; step 2 is the one of [src/main.ts]. *)
Definition generateTitle (noteContent : jsstring) : M (option jsstring) :=
  if isEmpty (apiKey settings) then
    notice Main.msgNoApiKey ;;;
    ret None
  else
    tryCatch
      (step1 <- extractedSentences noteContent ;;
       match step1 with
       | None => ret None
       | Some extracted =>
           if isEmpty extracted || (length (trim extracted) =? 0)%nat then
             notice msgNoContent ;;;
             ret None
           else
             result <-
               call (GenerateContent (apiKey settings) (modelId settings)
                                     (Main.prompt extracted))
                    (generateContent host (apiKey settings)
                                     (modelId settings)
                                     (Main.prompt extracted)) ;;
             Main.readResponse host result
       end)
      (notice Main.msgGenerationError ;;;
       ret None).

(** *** Positions

    The same pipeline with every candidate carrying its index in
    [sentences], the parse order. *)
Definition positioned (noteContent : jsstring) : list (nat * jsstring) :=
  combine (seq 0 (length (sentences noteContent)))
          (map trim (sentences noteContent)).

Definition validSentencesAt (noteContent : jsstring)
  : list (nat * jsstring) :=
  filter (fun ps => (3 <=? length (splitWhiteSpace (snd ps)))%nat)
    (filter (fun ps => (0 <? length (snd ps))%nat)
       (positioned noteContent)).

Definition sentencesToUseAt (noteContent : jsstring)
  : list (nat * jsstring) :=
  slice0 (numberOfSentences settings) (validSentencesAt noteContent).

End Plugin.

End FirstSentences.


(* ================================================================== *)
(** ** Predicates of the statements *)
(* ================================================================== *)


Definition isString (j : json) : bool :=
  match j with JString _ => true | _ => false end.

(** The oracle outcomes that are failures of the response: no response, a
    text that is not JSON, a JSON value without a [title], a [title] that
    is not a string. *)
Inductive oracleFailure (host : Collaborators) : option response -> Prop :=
| MissingResponse :
    oracleFailure host None
| MalformedJson (text : jsstring) :
    JSON_parse host text = None ->
    oracleFailure host (Some (Text text))
| MissingTitle (text : jsstring) (fields : list (jsstring * json)) :
    JSON_parse host text = Some (JObject fields) ->
    assoc (lit "title") fields = None ->
    oracleFailure host (Some (Text text))
| NonStringTitle (text : jsstring) (fields : list (jsstring * json))
                 (value : json) :
    JSON_parse host text = Some (JObject fields) ->
    assoc (lit "title") fields = Some value ->
    isString value = false ->
    oracleFailure host (Some (Text text)).

(* ================================================================== *)
(** ** The sanitisation as the specification words it *)
(* ================================================================== *)

Module Spec.

(** The characters illegal in file names: backslash, slash, colon,
    star, question mark, double quote, angle brackets, bar. *)
Definition illegal : jsstring := lit "\/:*?<>|" ++ dquote.

Definition stripIllegal (t : jsstring) : jsstring :=
  filter (fun c => negb (existsb (N.eqb c) illegal)) t.

(** Every newline and carriage return becomes a space. *)
Definition newlinesToSpaces (t : jsstring) : jsstring :=
  map (fun c => if existsb (N.eqb c) [10; 13] then 32 else c) t.

Definition sanitize (t : jsstring) : jsstring :=
  trim (newlinesToSpaces (stripIllegal t)).

End Spec.

(* ================================================================== *)
(** ** Example collaborators *)
(* ================================================================== *)

Module Example.

Definition quoted (s : jsstring) : jsstring := dquote ++ s ++ dquote.

(** The text of a JSON object with the one field [title], a string. *)
Definition titleText (t : jsstring) : jsstring :=
  lit "{" ++ quoted (lit "title") ++ lit ":" ++ quoted t ++ lit "}".

(** The text of a JSON object whose [title] is the number 5. *)
Definition numberTitleText : jsstring :=
  lit "{" ++ quoted (lit "title") ++ lit ":5}".

(** [JSON.parse] on the texts the examples use; any other text is taken
    as malformed. *)
Definition parse (text : jsstring) : option json :=
  if Js.eqb text (titleText (lit "Image"))
  then Some (JObject [(lit "title", JString (lit "Image"))])
  else if Js.eqb text (titleText (lit "  My Great Note  "))
  then Some (JObject [(lit "title", JString (lit "  My Great Note  "))])
  else if Js.eqb text (titleText [])
  then Some (JObject [(lit "title", JString [])])
  else if Js.eqb text numberTitleText
  then Some (JObject [(lit "title", JNumber (5 # 1))])
  else if Js.eqb text (lit "{}")
  then Some (JObject [])
  else None.

(** Collaborators whose summarizer and oracle answer every call the
    same way, and whose vault holds [content] in every file. *)
Definition host (summary : option (option (list jsstring)))
                (answer : option (option response))
                (content : jsstring) : Collaborators := {|
  newSummarizer := fun _ => Some tt;
  summarize := fun _ _ => summary;
  generateContent := fun _ _ _ => answer;
  JSON_parse := parse;
  cachedRead := fun _ => Some content;
  renameFile := fun _ _ => Some tt
|}.

(** Collaborators whose oracle answers with [text], which [JSON.parse]
    reads as [value]. *)
Definition answering (summary : option (option (list jsstring)))
                     (text : jsstring) (value : json)
                     (content : jsstring) : Collaborators := {|
  newSummarizer := fun _ => Some tt;
  summarize := fun _ _ => summary;
  generateContent := fun _ _ _ => Some (Some (Text text));
  JSON_parse := fun t => if Js.eqb t text then Some value else None;
  cachedRead := fun _ => Some content;
  renameFile := fun _ _ => Some tt
|}.

(** Collaborators that throw on every call. *)
Definition refusing : Collaborators := {|
  newSummarizer := fun _ => None;
  summarize := fun _ _ => None;
  generateContent := fun _ _ _ => None;
  JSON_parse := parse;
  cachedRead := fun _ => None;
  renameFile := fun _ _ => None
|}.

Definition settings (key : jsstring) (K : Z)
  : GeminiTitleGeneratorSettings := {|
  apiKey := key;
  modelId := lit "gemini-2.5-flash-preview-04-17";
  numberOfSentences := K;
  autoUpdateUntitledNotes := false
|}.

(** [Notes/My Great Note.md] *)
Definition note : TFile := {|
  path := lit "Notes/My Great Note.md";
  basename := lit "My Great Note";
  extension := lit "md";
  parent := Some (lit "Notes")
|}.


Definition pets : jsstring :=
  lit "Cats are mammals. Dogs are mammals too. No. Both are popular pets. Birds can fly.".

End Example.

(* ================================================================== *)
(** ** The handlers of [src/main.ts] around [generateTitle] *)
(* ================================================================== *)

Module Handlers.

(** A [TAbstractFile] of the vault: a file or a folder. *)
Inductive TAbstractFile :=
| AFile (file : TFile)
| AFolder (folderPath : jsstring).

(** The view of a workspace leaf: a [MarkdownView], with its [file] when
    it has one, or any other view. *)
Inductive View :=
| MarkdownView (file : option TFile)
| OtherView.

Record WorkspaceLeaf := { view : View }.

(** A non-negative integer inside a template literal. *)
Definition decimal (n : nat) : jsstring :=
  lit (DecimalString.NilEmpty.string_of_uint (Nat.to_uint n)).

(** [s.startsWith(prefix)] *)
Definition startsWith (prefix s : jsstring) : bool :=
  Js.eqb (firstn (length prefix) s) prefix.

Definition isCachedRead (e : event) : bool :=
  match e with CachedRead _ => true | _ => false end.

(** The calls that leave the plugin for a collaborator other than the
    notice area. *)
Definition isExternal (e : event) : bool :=
  match e with Notice _ => false | _ => true end.

(** The file a rename call is made on. *)
Definition renamed (log : list event) : list TFile :=
  flat_map (fun e => match e with RenameFile f _ => [f] | _ => [] end) log.

(** The notice of an accepted rename: its message starts as the
    template of [updateNoteTitle] does. *)
Definition isUpdatedNotice (e : event) : bool :=
  match e with
  | Notice message => startsWith (lit "Note title updated to: ") message
  | _ => false
  end.

(** The number of accepted renames the user has been told of. *)
Definition accepted (log : list event) : nat :=
  length (filter isUpdatedNotice log).

(** The file a read call is made on. *)
Definition readFiles (log : list event) : list TFile :=
  flat_map (fun e => match e with CachedRead f => [f] | _ => [] end) log.

(** [pMap(files, mapper, { concurrency: 1 })]: the files one after the
    other; a mapper that throws ends the run. [world done] is the host as
    it answers once the calls of [done] have been made (a rename changes
    what the vault answers afterwards), and [count] is the state the
    mapper's closure updates. *)
Fixpoint pMap {W : Type} (mapper : W -> nat -> TFile -> M nat)
  (world : list event -> W) (done : list event) (count : nat)
  (files : list TFile) : M nat :=
  match files with
  | [] => ret count
  | file :: rest =>
      match mapper (world done) count file with
      | (log, Normal count') =>
          let (log', c) := pMap mapper world (done ++ log) count' rest in
          (log ++ log', c)
      | (log, Thrown) => (log, Thrown)
      end
  end.

Section Plugin.

Variable settings : GeminiTitleGeneratorSettings.

Definition msgEditorEmpty : jsstring :=
  lit "Current note is empty. Cannot generate title.".
Definition msgEditorGenerating : jsstring :=
  lit "Generating title with Gemini...".
Definition msgNoActiveFile : jsstring :=
  lit "No active file to generate title for.".

(** The [editorCallback] of the command. [viewFile] is [view.file] when
    the command starts, [viewFileAfter] is [view.file] as it is read again
    once the title has come back. *)
Definition editorCallback (host : Collaborators) (editorValue : jsstring)
  (viewFile viewFileAfter : option TFile) : M unit :=
  match viewFile with
  | Some _ =>
      if isEmpty (trim editorValue) then
        notice msgEditorEmpty
      else
        notice msgEditorGenerating ;;;
        generatedTitle <- Main.generateTitle host settings editorValue ;;
        match generatedTitle, viewFileAfter with
        | Some ((_ :: _) as t), Some file =>
            Main.updateNoteTitle host file t ;;;
            ret tt
        | _, _ => ret tt
        end
  | None => notice msgNoActiveFile
  end.

(** [files.filter(file => file instanceof TFile && file.extension === 'md')] *)
Definition markdownFiles (files : list TAbstractFile) : list TFile :=
  flat_map (fun a => match a with
                     | AFile f =>
                         if Js.eqb (extension f) (lit "md") then [f] else []
                     | AFolder _ => []
                     end) files.

Definition msgGeneratingTitles (n : nat) : jsstring :=
  lit "Generating titles for " ++ decimal n ++ lit " note(s)...".
Definition msgSkipping (file : TFile) : jsstring :=
  lit "Note " ++ dquote ++ basename file ++ dquote
  ++ lit " is empty. Skipping.".
Definition msgFinished : jsstring :=
  lit "Finished generating titles for selected notes.".
Definition msgNoneSelected : jsstring :=
  lit "No markdown files selected.".

(** The [mapper] of the [files-menu] item; it keeps no count. *)
Definition batchMapper (host : Collaborators) (count : nat) (mdFile : TFile)
  : M nat :=
  tryCatch
    (noteContent <- call (CachedRead mdFile) (cachedRead host mdFile) ;;
     if isEmpty (trim noteContent) then
       notice (msgSkipping mdFile) ;;;
       ret count
     else
       generatedTitle <- Main.generateTitle host settings noteContent ;;
       match generatedTitle with
       | Some ((_ :: _) as t) =>
           Main.updateNoteTitle host mdFile t ;;;
           ret count
       | _ => ret count
       end)
    (notice (Main.msgFileError mdFile) ;;;
     ret count).

(** The [onClick] handler of the [files-menu] item, for the files the
    menu was opened on. *)
Definition batchOnClick (world : list event -> Collaborators)
  (files : list TAbstractFile)
  : M unit :=
  if (length (markdownFiles files) =? 0)%nat then
    notice msgNoneSelected
  else
    notice (msgGeneratingTitles (length (markdownFiles files))) ;;;
    pMap batchMapper world
         [Notice (msgGeneratingTitles (length (markdownFiles files)))]
         0%nat (markdownFiles files) ;;;
    notice msgFinished.

(** The [files-menu] listener: the item is added when a markdown file is
    among the files. *)
Definition filesMenu (world : list event -> Collaborators)
  (files : list TAbstractFile)
  : option (M unit) :=
  if (0 <? length (markdownFiles files))%nat
  then Some (batchOnClick world files)
  else None.

(** The [file-menu] listener: the item is added for a markdown file. *)
Definition fileMenu (host : Collaborators) (file : TAbstractFile)
  : option (M unit) :=
  match file with
  | AFile f =>
      if Js.eqb (extension f) (lit "md")
      then Some (Main.onClick host settings f)
      else None
  | AFolder _ => None
  end.

Definition msgChecking (file : TFile) : jsstring :=
  lit "Checking to auto-update title for " ++ dquote ++ basename file
  ++ dquote ++ lit "...".
Definition msgSkippingAuto (file : TFile) : jsstring :=
  lit "Note " ++ dquote ++ basename file ++ dquote
  ++ lit " is empty. Skipping auto-title.".
Definition msgAutoError (file : TFile) : jsstring :=
  lit "Error auto-updating title for " ++ dquote ++ basename file
  ++ dquote ++ lit ". Check console.".

(** [String.prototype.toLowerCase], a built-in the model does not spell
    out. *)
Variable toLowerCase : jsstring -> jsstring.

(** [file.basename.toLowerCase().startsWith("untitled")] *)
Definition isUntitled (file : TFile) : bool :=
  startsWith (lit "untitled") (toLowerCase (basename file)).

(** The file of [newLeaf] when the leaf is there, its view is a
    [MarkdownView] and the view has a file. *)
Definition leafFile (newLeaf : option WorkspaceLeaf) : option TFile :=
  match newLeaf with
  | Some {| view := MarkdownView (Some file) |} => Some file
  | _ => None
  end.

(** [handleActiveLeafChange]: the new value of [lastActiveFile] and what
    the handler does. [getAbstractFileByPath] is the vault's lookup. *)
Definition handleActiveLeafChange (host : Collaborators)
  (getAbstractFileByPath : jsstring -> option TAbstractFile)
  (lastActiveFile : option TFile) (newLeaf : option WorkspaceLeaf)
  : option TFile * M unit :=
  (leafFile newLeaf,
   match lastActiveFile with
   | Some previousFile =>
       if negb (autoUpdateUntitledNotes settings) then ret tt
       else
         match getAbstractFileByPath (path previousFile) with
         | None => ret tt
         | Some _ =>
             if isUntitled previousFile then
               tryCatch
                 (notice (msgChecking previousFile) ;;;
                  noteContent <- call (CachedRead previousFile)
                                      (cachedRead host previousFile) ;;
                  if isEmpty (trim noteContent) then
                    notice (msgSkippingAuto previousFile)
                  else
                    generatedTitle <-
                      Main.generateTitle host settings noteContent ;;
                    match generatedTitle with
                    | Some ((_ :: _) as t) =>
                        Main.updateNoteTitle host previousFile t ;;;
                        ret tt
                    | _ => ret tt
                    end)
                 (notice (msgAutoError previousFile))
             else ret tt
         end
   | None => ret tt
   end).

Definition msgAutoOpen (file : TFile) : jsstring :=
  lit "Auto-updating title for open note: " ++ dquote ++ basename file
  ++ dquote ++ lit "...".
Definition msgSkippingStartup (file : TFile) : jsstring :=
  lit "Note " ++ dquote ++ basename file ++ dquote
  ++ lit " is empty. Skipping auto-title on startup.".
Definition msgStartupError (file : TFile) : jsstring :=
  lit "Error auto-updating title for " ++ dquote ++ basename file
  ++ dquote ++ lit " on startup. Check console.".
Definition msgUpdatedCount (n : nat) : jsstring :=
  lit "Gemini: Updated titles for " ++ decimal n
  ++ lit " untitled note(s) on startup.".

(** The untitled files of the open markdown leaves, in the order of the
    leaves. *)
Definition untitledOpenFiles (markdownLeaves : list WorkspaceLeaf)
  : list TFile :=
  flat_map (fun leaf => match view leaf with
                        | MarkdownView (Some file) =>
                            if isUntitled file then [file] else []
                        | _ => []
                        end) markdownLeaves.

(** The host at startup: the collaborators and the vault's
    [getAbstractFileByPath]. *)
Definition Vault : Type :=
  Collaborators * (jsstring -> option TAbstractFile).

(** The [mapper] of the startup run; [count] is [updatedTitlesCount]. *)
Definition startupMapper (vault : Vault) (count : nat) (fileToUpdate : TFile)
  : M nat :=
  tryCatch
    (match snd vault (path fileToUpdate) with
     | Some (AFile currentFileState) =>
         if negb (isUntitled currentFileState) then ret count
         else
           notice (msgAutoOpen currentFileState) ;;;
           noteContent <- call (CachedRead currentFileState)
                               (cachedRead (fst vault) currentFileState) ;;
           if isEmpty (trim noteContent) then
             notice (msgSkippingStartup currentFileState) ;;;
             ret count
           else
             generatedTitle <-
               Main.generateTitle (fst vault) settings noteContent ;;
             match generatedTitle with
             | Some ((_ :: _) as t) =>
                 wasUpdated <-
                   Main.updateNoteTitle (fst vault) currentFileState t ;;
                 if wasUpdated then ret (S count) else ret count
             | _ => ret count
             end
     | _ => ret count
     end)
    (notice (msgStartupError fileToUpdate) ;;;
     ret count).

(** The callback of [onLayoutReady], for the markdown leaves that are
    open. *)
Definition onLayoutReady (world : list event -> Vault)
  (markdownLeaves : list WorkspaceLeaf) : M unit :=
  if autoUpdateUntitledNotes settings then
    if (0 <? length (untitledOpenFiles markdownLeaves))%nat then
      updatedTitlesCount <-
        pMap startupMapper world [] 0%nat
             (untitledOpenFiles markdownLeaves) ;;
      if (0 <? updatedTitlesCount)%nat
      then notice (msgUpdatedCount updatedTitlesCount)
      else ret tt
    else ret tt
  else ret tt.

End Plugin.

End Handlers.

(* ================================================================== *)
(** ** Strings: basic facts *)
(* ================================================================== *)

Lemma eqb_eq (a b : jsstring) : Js.eqb a b = true <-> a = b.
Proof.
  unfold Js.eqb. destruct (list_eq_dec N.eq_dec a b); split; congruence.
Qed.

Lemma eqb_refl (a : jsstring) : Js.eqb a a = true.
Proof. apply eqb_eq. reflexivity. Qed.

Lemma isEmpty_nil (s : jsstring) : isEmpty s = true <-> s = [].
Proof. destruct s; simpl; split; congruence. Qed.

Lemma length_zero_isEmpty (s : jsstring) :
  (length s =? 0)%nat = isEmpty s.
Proof. destruct s; reflexivity. Qed.

Lemma trimStart_nil (s : jsstring) :
  trimStart s = [] <-> forallb isWhiteSpace s = true.
Proof.
  induction s as [|c r IH]; simpl.
  - tauto.
  - destruct (isWhiteSpace c); simpl.
    + exact IH.
    + split; discriminate.
Qed.

Lemma trimStart_suffix (s : jsstring) :
  exists blanks, forallb isWhiteSpace blanks = true /\ s = blanks ++ trimStart s.
Proof.
  induction s as [|c r [b [Hb Hr]]]; simpl.
  - exists []. split; reflexivity.
  - destruct (isWhiteSpace c) eqn:Hc.
    + exists (c :: b). simpl. rewrite Hc, Hb. split; [reflexivity | congruence].
    + exists []. split; reflexivity.
Qed.

(** A string trims to nothing exactly when it is white space only. *)
Lemma trim_nil (s : jsstring) :
  trim s = [] <-> forallb isWhiteSpace s = true.
Proof.
  unfold trim, trimEnd. split.
  - intros H.
    assert (Hr : trimStart (rev (trimStart s)) = []).
    { destruct (trimStart (rev (trimStart s))) as [|x l]; [reflexivity|].
      simpl in H. destruct (rev l); discriminate. }
    apply trimStart_nil in Hr.
    destruct (trimStart_suffix s) as [b [Hb Hs]].
    rewrite Hs, forallb_app, Hb. simpl.
    rewrite forallb_forall in *. intros x Hx. apply Hr.
    apply in_rev. rewrite rev_involutive. exact Hx.
  - intros H. apply trimStart_nil in H. rewrite H. reflexivity.
Qed.

Lemma blank_orb (s : jsstring) :
  isEmpty s || isEmpty (trim s) = isEmpty (trim s).
Proof. destruct s; reflexivity. Qed.


Lemma splitOn_not_nil (sep : char -> bool) (s : jsstring) :
  splitOn sep s <> [].
Proof.
  destruct s as [|c r]; simpl; [discriminate|].
  destruct (sep c); [discriminate|].
  destruct (splitOn sep r); discriminate.
Qed.

(** Every code unit of a piece is a code unit of the string. *)
Lemma splitOn_In (sep : char -> bool) (s piece : jsstring) (c : char) :
  In piece (splitOn sep s) -> In c piece -> In c s.
Proof.
  revert piece. induction s as [|a r IH]; simpl; intros piece Hp Hc.
  - destruct Hp as [<-|[]]. destruct Hc.
  - destruct (sep a).
    + destruct Hp as [<-|Hp]; [destruct Hc|]. right. eapply IH; eauto.
    + destruct (splitOn sep r) as [|p ps] eqn:E.
      * destruct Hp as [<-|[]]. destruct Hc as [<-|[]]. left; reflexivity.
      * destruct Hp as [<-|Hp].
        -- destruct Hc as [<-|Hc]; [left; reflexivity|].
           right. apply (IH p); [left; reflexivity | exact Hc].
        -- right. apply (IH piece); [right; exact Hp | exact Hc].
Qed.

(** The operations on the values a JavaScript console gives. *)
Example trim_both_ends :
  trim (lit "  My Great Note  ") = lit "My Great Note"
  /\ trim ([10; 9] ++ lit "a b" ++ [13; 160]) = lit "a b"
  /\ trim (lit "   ") = [].
Proof. repeat split. Qed.

Example split_lines :
  splitOn (N.eqb 10) (lit "a" ++ [10] ++ [10] ++ lit "b")
  = [lit "a"; []; lit "b"]
  /\ splitOn (N.eqb 10) [] = [[]].
Proof. repeat split. Qed.

Example split_white_space :
  splitWhiteSpace (lit "Dogs  are mammals") = [lit "Dogs"; lit "are"; lit "mammals"]
  /\ splitWhiteSpace (lit " a ") = [[]; lit "a"; []]
  /\ splitWhiteSpace [] = [[]].
Proof. repeat split. Qed.

Example join_and_slice :
  join (lit ", ") [lit "a"; lit "b"; lit "c"] = lit "a, b, c"
  /\ slice0 2 [1; 2; 3] = [1; 2]
  /\ slice0 5 [1; 2; 3] = [1; 2; 3]
  /\ slice0 (-1) [1; 2; 3] = [1; 2].
Proof. repeat split. Qed.

(* ================================================================== *)
(** ** Regular expressions: [test] decides [matches] *)
(* ================================================================== *)

Lemma matches_nil_nullable (r : regex) (s : jsstring) :
  matches r s -> s = [] -> nullable r = true.
Proof.
  induction 1 as [|p c Hp|r1 r2 s1 s2 H1 IH1 H2 IH2| |]; intros E; simpl;
    try reflexivity.
  - discriminate.
  - apply app_eq_nil in E. destruct E as [E1 E2].
    rewrite (IH1 E1), (IH2 E2). reflexivity.
Qed.

Lemma nullable_matches (r : regex) :
  nullable r = true <-> matches r [].
Proof.
  split.
  - induction r as [|p|r1 IH1 r2 IH2|r IH]; simpl; intros H.
    + constructor.
    + discriminate.
    + apply andb_true_iff in H. destruct H as [H1 H2].
      apply (MCat r1 r2 [] []); auto.
    + constructor.
  - intros H. exact (matches_nil_nullable r [] H eq_refl).
Qed.

Lemma partialDeriv_sound (c : char) (r d : regex) (s : jsstring) :
  In d (partialDeriv c r) -> matches d s -> matches r (c :: s).
Proof.
  revert d s. induction r as [|p|r1 IH1 r2 IH2|r IH]; simpl; intros d s Hd Hm.
  - destruct Hd.
  - destruct (p c) eqn:Hp; [|destruct Hd].
    destruct Hd as [<-|[]]. inversion Hm; subst. constructor. exact Hp.
  - apply in_app_or in Hd. destruct Hd as [Hd | Hd].
    + apply in_map_iff in Hd. destruct Hd as [d1 [<- Hd1]].
      inversion Hm; subst.
      apply (MCat r1 r2 (c :: s1) s2); [apply (IH1 d1)|]; assumption.
    + destruct (nullable r1) eqn:Hn; [|destruct Hd].
      apply (MCat r1 r2 [] (c :: s)).
      * apply nullable_matches. exact Hn.
      * apply (IH2 d); assumption.
  - apply in_map_iff in Hd. destruct Hd as [d1 [<- Hd1]].
    inversion Hm; subst.
    apply (MStarApp r (c :: s1) s2); [apply (IH d1)|]; assumption.
Qed.

Lemma partialDeriv_complete (c : char) (r : regex) (s s' : jsstring) :
  matches r s' -> s' = c :: s ->
  exists d, In d (partialDeriv c r) /\ matches d s.
Proof.
  intros H. revert s.
  induction H as [|p c' Hp|r1 r2 s1 s2 H1 IH1 H2 IH2
                 |r|r s1 s2 H1 IH1 H2 IH2]; intros s E; simpl.
  - discriminate.
  - inversion E; subst. rewrite Hp. exists Eps. split; [left; reflexivity|].
    constructor.
  - destruct s1 as [|a s1]; simpl in E.
    + destruct (IH2 s E) as [d [Hd Hm]]. exists d. split; [|exact Hm].
      apply in_or_app. right.
      rewrite (matches_nil_nullable r1 [] H1 eq_refl). exact Hd.
    + inversion E; subst. destruct (IH1 s1 eq_refl) as [d [Hd Hm]].
      exists (Cat d r2). split.
      * apply in_or_app. left. apply in_map_iff. exists d.
        split; [reflexivity | exact Hd].
      * constructor; assumption.
  - discriminate.
  - destruct s1 as [|a s1]; simpl in E.
    + exact (IH2 s E).
    + inversion E; subst. destruct (IH1 s1 eq_refl) as [d [Hd Hm]].
      exists (Cat d (Star r)). split.
      * apply in_map_iff. exists d. split; [reflexivity | exact Hd].
      * constructor; assumption.
Qed.

Lemma residuals_matches (s : jsstring) (rs : list regex) :
  existsb nullable (residuals rs s) = true
  <-> exists r, In r rs /\ matches r s.
Proof.
  revert rs. induction s as [|c s IH]; intros rs; simpl.
  - rewrite existsb_exists. split; intros [r [Hin H]]; exists r;
      (split; [exact Hin | apply nullable_matches; exact H]).
  - rewrite IH. split.
    + intros [d [Hd Hm]]. apply in_flat_map in Hd.
      destruct Hd as [r [Hr Hd]]. exists r. split; [exact Hr|].
      apply (partialDeriv_sound c r d); assumption.
    + intros [r [Hr Hm]].
      destruct (partialDeriv_complete c r s _ Hm eq_refl) as [d [Hd Hd']].
      exists d. split; [|exact Hd']. apply in_flat_map. exists r. tauto.
Qed.

Lemma test_matches (r : regex) (s : jsstring) :
  test r s = true <-> matches r s.
Proof.
  unfold test. rewrite residuals_matches. split.
  - intros [r' [[<-|[]] H]]. exact H.
  - intros H. exists r. split; [left; reflexivity | exact H].
Qed.

Lemma matches_cat (r1 r2 : regex) (s : jsstring) :
  matches (Cat r1 r2) s ->
  exists s1 s2, s = s1 ++ s2 /\ matches r1 s1 /\ matches r2 s2.
Proof.
  intros H. inversion H; subst. eauto.
Qed.

Lemma matches_word (w s : jsstring) :
  matches (word w) s <-> s = w.
Proof.
  split.
  - revert s. induction w as [|c w IH]; simpl; intros s H.
    + inversion H. reflexivity.
    + inversion H as [| |r1 r2 s1 s2 H1 H2| |]; subst.
      inversion H1; subst. simpl.
      match goal with Hc : (_ =? _) = true |- _ => apply N.eqb_eq in Hc; subst end.
      f_equal. apply IH. exact H2.
  - intros ->. induction w as [|c w IH]; simpl.
    + constructor.
    + apply (MCat (chr c) (word w) [c] w); [|exact IH].
      constructor. apply N.eqb_refl.
Qed.

Lemma matches_star_class (p : char -> bool) (s s' : jsstring) :
  matches (Star (Class p)) s' -> s' = s -> forallb p s = true.
Proof.
  intros H. revert s. remember (Star (Class p)) as r eqn:Er.
  induction H as [| | | |r0 s1 s2 H1 IH1 H2 IH2]; intros s E;
    try discriminate Er; subst s.
  - reflexivity.
  - inversion Er; subst r0. inversion H1; subst. simpl.
    rewrite (IH2 Er s2 eq_refl).
    match goal with Hc : p _ = true |- _ => rewrite Hc end. reflexivity.
Qed.

Lemma star_class_matches (p : char -> bool) (s : jsstring) :
  forallb p s = true -> matches (Star (Class p)) s.
Proof.
  induction s as [|c s IH]; simpl; intros H.
  - constructor.
  - apply andb_true_iff in H. destruct H as [Hc Hs].
    apply (MStarApp (Class p) [c] s); [constructor; exact Hc | exact (IH Hs)].
Qed.

(** The image pattern holds of the strings that open with ![[, close
    with ]] and have no line terminator in between. *)
Lemma imageEmbeddingRegex_test (s : jsstring) :
  test Main.imageEmbeddingRegex s = true
  <-> exists inner,
        s = lit "![[" ++ inner ++ lit "]]"
        /\ forallb (fun c => negb (isLineTerminator c)) inner = true.
Proof.
  rewrite test_matches. unfold Main.imageEmbeddingRegex. split.
  - intros H.
    apply matches_cat in H. destruct H as [s1 [s' [-> [H1 H2]]]].
    apply matches_cat in H2. destruct H2 as [s3 [s4 [-> [H3 H4]]]].
    apply matches_word in H1. apply matches_word in H4. subst.
    exists s3. split; [reflexivity|].
    exact (matches_star_class _ s3 s3 H3 eq_refl).
  - intros [inner [-> Hin]].
    apply MCat; [apply matches_word; reflexivity|].
    apply MCat; [|apply matches_word; reflexivity].
    apply star_class_matches. exact Hin.
Qed.

(* ================================================================== *)
(** ** [generateTitle]: configuration and extraction *)
(* ================================================================== *)

(** C8. With an empty API key [generateTitle] shows the configuration
    notice and returns [null]; that notice is its only call: nothing is
    summarized, the oracle is not asked, nothing is tried again. *)
Theorem generateTitle_without_api_key
  (host : Collaborators) (settings : GeminiTitleGeneratorSettings)
  (noteContent : jsstring)
  (Hkey : apiKey settings = []) :
  Main.generateTitle host settings noteContent
  = ([Notice Main.msgNoApiKey], Normal None).
Proof.
  unfold Main.generateTitle. rewrite Hkey. reflexivity.
Qed.

Lemma generateTitle_without_api_key_witness :
  Main.generateTitle (Example.host (Some (Some [])) None Example.pets)
                     DEFAULT_PLUGIN_SETTINGS Example.pets
  = ([Notice Main.msgNoApiKey], Normal None).
Proof.
  apply (generateTitle_without_api_key
           (Example.host (Some (Some [])) None Example.pets)
           DEFAULT_PLUGIN_SETTINGS Example.pets).
  reflexivity.
Defined.

(** Step 1 always completes: an error of the library is caught. When
    the summarizer cannot be built, and when it has no sentence, the value
    is the fallback; the summarizer is called only once it is built. *)
Lemma extractedSentences_fallback
  (host : Collaborators) (settings : GeminiTitleGeneratorSettings)
  (noteContent : jsstring)
  (Hzero : newSummarizer host (Main.config settings) = None
           \/ summarize host (Main.config settings)
                (Main.processedNoteContent noteContent) = Some (Some [])
           \/ summarize host (Main.config settings)
                (Main.processedNoteContent noteContent) = Some None
           \/ summarize host (Main.config settings)
                (Main.processedNoteContent noteContent) = None) :
  (newSummarizer host (Main.config settings) = None
   /\ Main.extractedSentences host settings noteContent
      = ([Notice Main.msgExtractionError],
         Normal (Main.fallback noteContent)))
  \/ (newSummarizer host (Main.config settings) = Some tt
      /\ exists message,
           (message = Main.msgNoKeySentences
            \/ message = Main.msgExtractionError)
           /\ Main.extractedSentences host settings noteContent
              = ([Summarize (Main.config settings)
                            (Main.processedNoteContent noteContent);
                  Notice message],
                 Normal (Main.fallback noteContent))).
Proof.
  unfold Main.extractedSentences, call.
  destruct (newSummarizer host (Main.config settings)) as [[]|] eqn:Hb.
  - right. split; [reflexivity|].
    destruct Hzero as [H | [H | [H | H]]]; [discriminate H| | |];
      rewrite H; simpl.
    + exists Main.msgNoKeySentences. split; [left|]; reflexivity.
    + exists Main.msgNoKeySentences. split; [left|]; reflexivity.
    + exists Main.msgExtractionError. split; [right|]; reflexivity.
  - left. split; reflexivity.
Qed.

Lemma extractedSentences_completes
  (host : Collaborators) (settings : GeminiTitleGeneratorSettings)
  (noteContent : jsstring) :
  exists log extracted,
    Main.extractedSentences host settings noteContent
    = (log, Normal extracted)
    /\ existsb isRename log = false.
Proof.
  unfold Main.extractedSentences, call.
  destruct (newSummarizer host (Main.config settings)) as [[]|];
    [|simpl; eauto].
  destruct (summarize host (Main.config settings)
              (Main.processedNoteContent noteContent))
    as [[[|s l]|]|]; simpl; eauto.
Qed.

(** C2. When the summarizer returns no sentence, and when it throws,
    [extractedSentences] is the first 500 code units of the filtered text
    if that text is not blank, and of the original text otherwise. *)
Theorem extraction_falls_back_to_500_characters
  (host : Collaborators) (settings : GeminiTitleGeneratorSettings)
  (noteContent : jsstring)
  (Hzero : summarize host (Main.config settings)
             (Main.processedNoteContent noteContent) = Some (Some [])
           \/ summarize host (Main.config settings)
                (Main.processedNoteContent noteContent) = Some None
           \/ summarize host (Main.config settings)
                (Main.processedNoteContent noteContent) = None) :
  outcome (Main.extractedSentences host settings noteContent)
  = Normal
      (if isEmpty (trim (Main.processedNoteContent noteContent))
       then firstn 500 noteContent
       else firstn 500 (Main.processedNoteContent noteContent)).
Proof.
  destruct (extractedSentences_fallback host settings noteContent
              (or_intror Hzero)) as [[_ E] | [_ [message [_ E]]]];
    rewrite E; unfold outcome, Main.fallback, substring0; simpl;
    destruct (isEmpty (trim (Main.processedNoteContent noteContent)));
    reflexivity.
Qed.

Lemma extraction_falls_back_to_500_characters_witness :
  outcome (Main.extractedSentences
             (Example.host None None Example.pets)
             (Example.settings (lit "key") 8) (lit "Too short"))
  = Normal (lit "Too short").
Proof.
  apply (extraction_falls_back_to_500_characters
           (Example.host None None Example.pets)
           (Example.settings (lit "key") 8) (lit "Too short")).
  right. right. reflexivity.
Defined.

(* ================================================================== *)
(** ** Notes that hold image embeddings only *)
(* ================================================================== *)







(* ================================================================== *)
(** ** [generateTitle]: the oracle's response *)
(* ================================================================== *)

(** Once step 1 has given a context that is not blank, [generateTitle] is
    the oracle call followed by the reading of its result. *)
Lemma generateTitle_after_extraction
  (host : Collaborators) (settings : GeminiTitleGeneratorSettings)
  (noteContent : jsstring) (log log' : list event) (extracted : jsstring)
  (result : option response) (value : option jsstring) :
  isEmpty (apiKey settings) = false ->
  Main.extractedSentences host settings noteContent
  = (log, Normal extracted) ->
  isEmpty (trim extracted) = false ->
  generateContent host (apiKey settings) (modelId settings)
    (Main.prompt extracted) = Some result ->
  Main.readResponse host result = (log', Normal value) ->
  Main.generateTitle host settings noteContent
  = (log ++ GenerateContent (apiKey settings) (modelId settings)
              (Main.prompt extracted) :: log',
     Normal value).
Proof.
  intros Hkey Hex Hnb Hgen Hread.
  unfold Main.generateTitle. rewrite Hkey, Hex.
  unfold bind at 1. cbv beta.
  rewrite length_zero_isEmpty, blank_orb, Hnb.
  unfold call. rewrite Hgen. unfold bind. rewrite Hread. reflexivity.
Qed.

(** A failed response is answered by one notice and [null]. *)
Lemma readResponse_failure
  (host : Collaborators) (result : option response) :
  oracleFailure host result ->
  exists message,
    (message = Main.msgNoResponse \/ message = Main.msgParseFailed
     \/ message = Main.msgInvalidTitle)
    /\ Main.readResponse host result = ([Notice message], Normal None).
Proof.
  intros H. destruct H as [|text Hp|text fields Hp Ht|text fields v Hp Ht Hs].
  - exists Main.msgNoResponse. split; [left|]; reflexivity.
  - exists Main.msgParseFailed. split; [right; left; reflexivity|].
    simpl. rewrite Hp. reflexivity.
  - exists Main.msgInvalidTitle. split; [right; right; reflexivity|].
    simpl. rewrite Hp. unfold Main.validTitle. simpl. rewrite Ht. reflexivity.
  - exists Main.msgInvalidTitle. split; [right; right; reflexivity|].
    assert (Hv : Main.validTitle (JObject fields) = None).
    { unfold Main.validTitle. simpl. rewrite Ht.
      destruct v as [|b|q|s|items|fields']; try discriminate Hs;
        simpl; try reflexivity.
      - destruct b; reflexivity.
      - destruct (Qeq_bool q 0); reflexivity. }
    simpl. rewrite Hp. simpl. rewrite Hv. reflexivity.
Qed.

Lemma readResponse_never_renames
  (host : Collaborators) (result : option response) :
  existsb isRename (calls (Main.readResponse host result)) = false.
Proof.
  destruct result as [[text|]|]; simpl; try reflexivity.
  destruct (JSON_parse host text) as [j|]; simpl; try reflexivity.
  destruct (Main.validTitle j); reflexivity.
Qed.

(** [generateTitle] itself never asks for a rename. *)
Lemma generateTitle_never_renames
  (host : Collaborators) (settings : GeminiTitleGeneratorSettings)
  (noteContent : jsstring) :
  existsb isRename (calls (Main.generateTitle host settings noteContent))
  = false.
Proof.
  unfold Main.generateTitle.
  destruct (isEmpty (apiKey settings)); [reflexivity|].
  destruct (extractedSentences_completes host settings noteContent)
    as [log [extracted [E Hlog]]].
  rewrite E. unfold bind at 1. cbv beta.
  destruct (isEmpty extracted || (length (trim extracted) =? 0)%nat).
  - destruct (length (trim noteContent) =? 0)%nat; simpl;
      unfold calls; simpl; rewrite existsb_app, Hlog; reflexivity.
  - unfold call.
    destruct (generateContent host (apiKey settings) (modelId settings)
                (Main.prompt extracted)) as [result|].
    + pose proof (readResponse_never_renames host result) as Hr.
      unfold bind.
      destruct (Main.readResponse host result) as [log' [v|]];
        unfold calls in *; simpl in *;
        repeat (rewrite existsb_app; simpl);
        rewrite Hlog, ?Hr; reflexivity.
    + unfold calls. simpl. repeat (rewrite existsb_app; simpl).
      rewrite Hlog. reflexivity.
Qed.

(** When [generateTitle] returns [null] the menu handler stops there. *)
Lemma onClick_without_title
  (host : Collaborators) (settings : GeminiTitleGeneratorSettings)
  (file : TFile) (noteContent : jsstring) :
  cachedRead host file = Some noteContent ->
  outcome (Main.generateTitle host settings noteContent) = Normal None ->
  existsb isRename (calls (Main.onClick host settings file)) = false.
Proof.
  intros Hread Hnull.
  pose proof (generateTitle_never_renames host settings noteContent) as Hg.
  unfold Main.onClick, call, calls in *. rewrite Hread. simpl.
  destruct (Main.generateTitle host settings noteContent) as [log c].
  unfold outcome in Hnull. simpl in Hnull. subst c. simpl in Hg.
  destruct (isEmpty (trim noteContent)); simpl; [reflexivity|].
  rewrite app_nil_r. exact Hg.
Qed.

(** C4. When the oracle's result has no response, or a text that
    [JSON.parse] rejects, or an object without [title], or one whose
    [title] is not a string, [generateTitle] shows one notice of failure
    after the call and returns [null]: it completes normally, and the menu
    handler that called it asks for no rename. *)
Theorem oracle_failure_is_reported
  (host : Collaborators) (settings : GeminiTitleGeneratorSettings)
  (file : TFile) (noteContent : jsstring) (log : list event)
  (extracted : jsstring) (result : option response)
  (Hkey : isEmpty (apiKey settings) = false)
  (Hread : cachedRead host file = Some noteContent)
  (Hextract : Main.extractedSentences host settings noteContent
              = (log, Normal extracted))
  (Hcontext : isEmpty (trim extracted) = false)
  (Hanswer : generateContent host (apiKey settings) (modelId settings)
               (Main.prompt extracted) = Some result)
  (Hfail : oracleFailure host result) :
  exists message,
    (message = Main.msgNoResponse \/ message = Main.msgParseFailed
     \/ message = Main.msgInvalidTitle)
    /\ Main.generateTitle host settings noteContent
       = (log ++ [GenerateContent (apiKey settings) (modelId settings)
                    (Main.prompt extracted);
                  Notice message],
          Normal None)
    /\ existsb isRename (calls (Main.onClick host settings file)) = false.
Proof.
  destruct (readResponse_failure host result Hfail) as [message [Hm Hr]].
  exists message. split; [exact Hm|].
  pose proof (generateTitle_after_extraction host settings noteContent
                log [Notice message] extracted result None
                Hkey Hextract Hcontext Hanswer Hr) as Hg.
  split; [exact Hg|].
  apply (onClick_without_title host settings file noteContent Hread).
  rewrite Hg. reflexivity.
Qed.

Lemma oracle_failure_is_reported_witness :
  exists message,
    (message = Main.msgNoResponse \/ message = Main.msgParseFailed
     \/ message = Main.msgInvalidTitle)
    /\ Main.generateTitle
         (Example.host (Some (Some [lit "Cats are mammals."]))
            (Some (Some (Text (lit "not json")))) Example.pets)
         (Example.settings (lit "key") 8) Example.pets
       = ([Summarize (Main.config (Example.settings (lit "key") 8))
             Example.pets]
          ++ [GenerateContent (lit "key")
                (lit "gemini-2.5-flash-preview-04-17")
                (Main.prompt (lit "Cats are mammals."));
              Notice message],
          Normal None)
    /\ existsb isRename
         (calls (Main.onClick
                   (Example.host (Some (Some [lit "Cats are mammals."]))
                      (Some (Some (Text (lit "not json")))) Example.pets)
                   (Example.settings (lit "key") 8) Example.note))
       = false.
Proof.
  apply (oracle_failure_is_reported
           (Example.host (Some (Some [lit "Cats are mammals."]))
              (Some (Some (Text (lit "not json")))) Example.pets)
           (Example.settings (lit "key") 8) Example.note Example.pets
           [Summarize (Main.config (Example.settings (lit "key") 8))
              Example.pets]
           (lit "Cats are mammals.")
           (Some (Text (lit "not json")))).
  - reflexivity.
  - reflexivity.
  - vm_compute. reflexivity.
  - vm_compute. reflexivity.
  - reflexivity.
  - apply MalformedJson. vm_compute. reflexivity.
Defined.

(** C10. A response whose JSON object has the empty string as [title] is
    a failure: the test of the title needs a truthy value, so
    [generateTitle] shows the notice of an invalid title and returns
    [null], and the menu handler asks for no rename. *)
Theorem empty_title_is_a_failure
  (host : Collaborators) (settings : GeminiTitleGeneratorSettings)
  (file : TFile) (noteContent : jsstring) (log : list event)
  (extracted text : jsstring) (fields : list (jsstring * json))
  (Hkey : isEmpty (apiKey settings) = false)
  (Hread : cachedRead host file = Some noteContent)
  (Hextract : Main.extractedSentences host settings noteContent
              = (log, Normal extracted))
  (Hcontext : isEmpty (trim extracted) = false)
  (Hanswer : generateContent host (apiKey settings) (modelId settings)
               (Main.prompt extracted) = Some (Some (Text text)))
  (Hparse : JSON_parse host text = Some (JObject fields))
  (Htitle : assoc (lit "title") fields = Some (JString [])) :
  Main.generateTitle host settings noteContent
  = (log ++ [GenerateContent (apiKey settings) (modelId settings)
               (Main.prompt extracted);
             Notice Main.msgInvalidTitle],
     Normal None)
  /\ existsb isRename (calls (Main.onClick host settings file)) = false.
Proof.
  assert (Hr : Main.readResponse host (Some (Text text))
               = ([Notice Main.msgInvalidTitle], Normal None)).
  { simpl. rewrite Hparse. unfold Main.validTitle. simpl.
    rewrite Htitle. reflexivity. }
  pose proof (generateTitle_after_extraction host settings noteContent
                log [Notice Main.msgInvalidTitle] extracted
                (Some (Text text)) None
                Hkey Hextract Hcontext Hanswer Hr) as Hg.
  split; [exact Hg|].
  apply (onClick_without_title host settings file noteContent Hread).
  rewrite Hg. reflexivity.
Qed.

Lemma empty_title_is_a_failure_witness :
  Main.generateTitle
    (Example.host (Some (Some [lit "Cats are mammals."]))
       (Some (Some (Text (Example.titleText [])))) Example.pets)
    (Example.settings (lit "key") 8) Example.pets
  = ([Summarize (Main.config (Example.settings (lit "key") 8))
        Example.pets]
     ++ [GenerateContent (lit "key")
           (lit "gemini-2.5-flash-preview-04-17")
           (Main.prompt (lit "Cats are mammals."));
         Notice Main.msgInvalidTitle],
     Normal None)
  /\ existsb isRename
       (calls (Main.onClick
                 (Example.host (Some (Some [lit "Cats are mammals."]))
                    (Some (Some (Text (Example.titleText [])))) Example.pets)
                 (Example.settings (lit "key") 8) Example.note))
     = false.
Proof.
  apply (empty_title_is_a_failure
           (Example.host (Some (Some [lit "Cats are mammals."]))
              (Some (Some (Text (Example.titleText [])))) Example.pets)
           (Example.settings (lit "key") 8) Example.note Example.pets
           [Summarize (Main.config (Example.settings (lit "key") 8))
              Example.pets]
           (lit "Cats are mammals.") (Example.titleText [])
           [(lit "title", JString [])]).
  - reflexivity.
  - reflexivity.
  - vm_compute. reflexivity.
  - vm_compute. reflexivity.
  - reflexivity.
  - vm_compute. reflexivity.
  - vm_compute. reflexivity.
Defined.

(* ================================================================== *)
(** ** [updateNoteTitle] *)
(* ================================================================== *)

Lemma isForbidden_illegal (c : char) :
  Main.isForbidden c = existsb (N.eqb c) Spec.illegal.
Proof.
  replace Spec.illegal with [92; 47; 58; 42; 63; 60; 62; 124; 34]
    by reflexivity.
  unfold Main.isForbidden. simpl.
  destruct (c =? 92), (c =? 47), (c =? 58), (c =? 42), (c =? 63),
    (c =? 34), (c =? 60), (c =? 62), (c =? 124); reflexivity.
Qed.

Lemma replaceAll_nil_filter (class : char -> bool) (t : jsstring) :
  replaceAll class [] t = filter (fun c => negb (class c)) t.
Proof.
  unfold replaceAll.
  induction t as [|c r IH]; simpl; [reflexivity|].
  rewrite IH. destruct (class c); reflexivity.
Qed.

Lemma replace_forbidden_strips (t : jsstring) :
  replaceAll Main.isForbidden [] t = Spec.stripIllegal t.
Proof.
  rewrite replaceAll_nil_filter. unfold Spec.stripIllegal.
  apply filter_ext. intros c. rewrite isForbidden_illegal. reflexivity.
Qed.

Lemma replace_newlines_maps (t : jsstring) :
  replaceAll Main.isNewline (lit " ") t = Spec.newlinesToSpaces t.
Proof.
  unfold replaceAll, Spec.newlinesToSpaces, Main.isNewline.
  induction t as [|c r IH]; simpl; [reflexivity|].
  rewrite IH, orb_false_r.
  destruct ((c =? 10) || (c =? 13)); reflexivity.
Qed.

(** C9. The sanitized title of [updateNoteTitle] is the title without
    the characters illegal in file names, then with a space for every
    newline and carriage return, then trimmed; the title of the scenario
    sanitizes to My Great Note. *)
Theorem sanitizedTitle_strips_replaces_trims (newTitle : jsstring) :
  Main.sanitizedTitle newTitle = Spec.sanitize newTitle
  /\ Main.sanitizedTitle (lit "  My Great Note  ") = lit "My Great Note".
Proof.
  split; [|vm_compute; reflexivity].
  unfold Main.sanitizedTitle, Spec.sanitize.
  rewrite replace_forbidden_strips, replace_newlines_maps. reflexivity.
Qed.

(** The first guard of [updateNoteTitle] holds whenever the second
    would: a blank title sanitizes to the empty string. *)
Lemma updateNoteTitle_guards
  (host : Collaborators) (file : TFile) (newTitle : jsstring) :
  Main.sanitizedTitle newTitle = []
  \/ Main.newPath file newTitle = path file ->
  exists message,
    (message = Main.msgTitleEmpty \/ message = Main.msgSanitizedEmpty
     \/ message = Main.msgAlready (Main.sanitizedTitle newTitle))
    /\ Main.updateNoteTitle host file newTitle
       = ([Notice message], Normal false).
Proof.
  intros H. unfold Main.updateNoteTitle.
  destruct (isEmpty newTitle || Js.eqb (trim newTitle) []).
  { exists Main.msgTitleEmpty. split; [left|]; reflexivity. }
  destruct (isEmpty (Main.sanitizedTitle newTitle)) eqn:Es.
  { exists Main.msgSanitizedEmpty.
    split; [right; left|]; reflexivity. }
  destruct H as [H | H].
  - rewrite H in Es. discriminate.
  - rewrite H, eqb_refl.
    exists (Main.msgAlready (Main.sanitizedTitle newTitle)).
    split; [right; right|]; reflexivity.
Qed.

(** C5. When the sanitized title is empty, or the path built from it is
    the file's path, [updateNoteTitle] makes one call, a notice that no
    change was made, and returns [false]: no rename is asked for, and the
    notice is not the one of a failed rename. *)
Theorem updateNoteTitle_no_op
  (host : Collaborators) (file : TFile) (newTitle : jsstring)
  (Hnoop : Main.sanitizedTitle newTitle = []
           \/ Main.newPath file newTitle = path file) :
  exists message,
    (message = Main.msgTitleEmpty \/ message = Main.msgSanitizedEmpty
     \/ message = Main.msgAlready (Main.sanitizedTitle newTitle))
    /\ Main.updateNoteTitle host file newTitle
       = ([Notice message], Normal false)
    /\ existsb isRename (calls (Main.updateNoteTitle host file newTitle))
       = false.
Proof.
  destruct (updateNoteTitle_guards host file newTitle Hnoop)
    as [message [Hm E]].
  exists message. split; [exact Hm|]. split; [exact E|].
  rewrite E. reflexivity.
Qed.

Lemma updateNoteTitle_no_op_witness :
  exists message,
    (message = Main.msgTitleEmpty \/ message = Main.msgSanitizedEmpty
     \/ message = Main.msgAlready
                    (Main.sanitizedTitle (lit "  My Great Note  ")))
    /\ Main.updateNoteTitle (Example.host None None Example.pets)
         Example.note (lit "  My Great Note  ")
       = ([Notice message], Normal false)
    /\ existsb isRename
         (calls (Main.updateNoteTitle (Example.host None None Example.pets)
                   Example.note (lit "  My Great Note  ")))
       = false.
Proof.
  apply (updateNoteTitle_no_op (Example.host None None Example.pets)
           Example.note (lit "  My Great Note  ")).
  right. vm_compute. reflexivity.
Defined.

(* ================================================================== *)
(** ** Lists: slices, filters and positions *)
(* ================================================================== *)

Section ListFacts.

Context {A B : Type}.

Lemma slice0_firstn (k : Z) (l : list A) :
  exists n, slice0 k l = firstn n l.
Proof.
  unfold slice0. destruct (k <? 0)%Z; eauto.
Qed.

Lemma slice0_length (k : Z) (l : list A) :
  (0 <= k)%Z ->
  length (slice0 k l) = Nat.min (Z.to_nat k) (length l).
Proof.
  intros Hk. unfold slice0.
  destruct (k <? 0)%Z eqn:E; [lia|]. apply length_firstn.
Qed.

Lemma slice0_all (k : Z) (l : list A) :
  (Z.of_nat (length l) <= k)%Z -> slice0 k l = l.
Proof.
  intros Hk. unfold slice0.
  destruct (k <? 0)%Z eqn:E; [lia|]. apply firstn_all2. lia.
Qed.

Lemma slice0_map (f : A -> B) (k : Z) (l : list A) :
  map f (slice0 k l) = slice0 k (map f l).
Proof.
  unfold slice0. rewrite length_map.
  destruct (k <? 0)%Z; symmetry; apply firstn_map.
Qed.

Lemma filter_map_snd (p : B -> bool) (l : list (A * B)) :
  map snd (filter (fun ab => p (snd ab)) l) = filter p (map snd l).
Proof.
  induction l as [|[a b] r IH]; simpl; [reflexivity|].
  destruct (p b); simpl; rewrite IH; reflexivity.
Qed.

Lemma combine_seq_snd (l : list B) (start : nat) :
  map snd (combine (seq start (length l)) l) = l.
Proof.
  revert start. induction l as [|b r IH]; intros start; simpl;
    [reflexivity|]. rewrite IH. reflexivity.
Qed.

(** An entry of a list numbered from [start] sits at its number. *)
Lemma combine_seq_lookup (l : list B) (start p : nat) (b : B) :
  In (p, b) (combine (seq start (length l)) l) ->
  (start <= p)%nat /\ nth_error l (p - start) = Some b.
Proof.
  revert start. induction l as [|x r IH]; intros start; simpl.
  - intros [].
  - intros [E | Hin].
    + inversion E; subst. rewrite Nat.sub_diag. split; [lia | reflexivity].
    + destruct (IH (S start) Hin) as [Hle Hnth]. split; [lia|].
      replace (p - start)%nat with (S (p - S start)) by lia. exact Hnth.
Qed.

Variable R : A -> A -> Prop.

Lemma StronglySorted_filter (p : A -> bool) (l : list A) :
  StronglySorted R l -> StronglySorted R (filter p l).
Proof.
  induction 1 as [|a l Hs IH Hall]; simpl; [constructor|].
  destruct (p a); [|exact IH]. constructor; [exact IH|].
  rewrite Forall_forall in *. intros x Hx.
  apply Hall. apply filter_In in Hx. tauto.
Qed.

Lemma StronglySorted_firstn (n : nat) (l : list A) :
  StronglySorted R l -> StronglySorted R (firstn n l).
Proof.
  intros Hs. revert n.
  induction Hs as [|a l Hs IH Hall]; intros [|n]; simpl;
    try constructor; [apply IH|].
  rewrite Forall_forall in *. intros x Hx.
  apply Hall. rewrite <- (firstn_skipn n l). apply in_or_app. tauto.
Qed.

(** In a strongly sorted list an earlier entry is related to every
    later one. *)
Lemma StronglySorted_nth (l : list A) (i j : nat) (a b : A) :
  StronglySorted R l -> (i < j)%nat ->
  nth_error l i = Some a -> nth_error l j = Some b -> R a b.
Proof.
  intros Hs. revert i j.
  induction Hs as [|x l Hs IH Hall]; intros i j Hij Hi Hj.
  - destruct i; discriminate.
  - destruct j as [|j]; [lia|]. simpl in Hj.
    destruct i as [|i]; simpl in Hi.
    + inversion Hi; subst x. rewrite Forall_forall in Hall.
      apply Hall. eapply nth_error_In. exact Hj.
    + apply (IH i j); [lia | exact Hi | exact Hj].
Qed.

End ListFacts.

Lemma positions_ascend (B : Type) (l : list B) (start : nat) :
  StronglySorted (fun a b : nat * B => (fst a < fst b)%nat)
                 (combine (seq start (length l)) l).
Proof.
  revert start. induction l as [|x r IH]; intros start; simpl;
    constructor; [apply IH|].
  rewrite Forall_forall. intros [p b] Hin. simpl.
  destruct (combine_seq_lookup r (S start) p b Hin) as [Hle _]. lia.
Qed.

(* ================================================================== *)
(** ** The first-sentences variant: parsing and selection *)
(* ================================================================== *)

(** [splitOn] cuts at every separator and nowhere else: one piece more
    than there are separators, no separator inside a piece, and the
    pieces together are the string without its separators. *)
Lemma splitOn_spec (sep : char -> bool) (s : jsstring) :
  length (splitOn sep s) = S (length (filter sep s))
  /\ concat (splitOn sep s) = filter (fun c => negb (sep c)) s
  /\ forallb (forallb (fun c => negb (sep c))) (splitOn sep s) = true.
Proof.
  induction s as [|c r [Hlen [Hcat Hfree]]]; simpl.
  - repeat split.
  - destruct (sep c) eqn:Ec; simpl.
    + rewrite Hlen. repeat split; assumption.
    + destruct (splitOn sep r) as [|p ps]; simpl in *.
      * discriminate Hlen.
      * rewrite Ec. simpl. repeat split; [assumption | congruence | assumption].
Qed.

Lemma splitOn_free (sep : char -> bool) (s : jsstring) :
  forallb (fun c => negb (sep c)) s = true -> splitOn sep s = [s].
Proof.
  induction s as [|c r IH]; simpl; intros H; [reflexivity|].
  apply andb_true_iff in H. destruct H as [Hc Hr].
  apply negb_true_iff in Hc. rewrite Hc, (IH Hr). reflexivity.
Qed.

Lemma splitOn_app (sep : char -> bool) (x rest : jsstring) (c : char) :
  forallb (fun c => negb (sep c)) x = true -> sep c = true ->
  splitOn sep (x ++ c :: rest) = x :: splitOn sep rest.
Proof.
  intros Hx Hc. induction x as [|a x IH]; simpl.
  - rewrite Hc. reflexivity.
  - simpl in Hx. apply andb_true_iff in Hx. destruct Hx as [Ha Hx].
    apply negb_true_iff in Ha. rewrite Ha, (IH Hx). reflexivity.
Qed.

(** A string is its pieces with the separators it was cut at between
    them. *)
Lemma splitOn_weave (sep : char -> bool) (s : jsstring) :
  exists marks,
    forallb sep marks = true
    /\ length (splitOn sep s) = S (length marks)
    /\ s = weave (splitOn sep s) marks.
Proof.
  induction s as [|c r [marks [Hm [Hlen Hs]]]].
  - exists []. repeat split.
  - cbn [splitOn]. destruct (sep c) eqn:Ec.
    + exists (c :: marks). simpl. rewrite Ec, Hm, Hlen, <- Hs.
      repeat split.
    + destruct (splitOn sep r) as [|p ps]; [discriminate Hlen|].
      exists marks. split; [exact Hm|]. split; [exact Hlen|].
      destruct marks as [|m ms]; simpl in *; rewrite <- Hs; reflexivity.
Qed.

(** C3, as the code has it. The parser cuts the text at every full stop,
    question mark and exclamation mark, whatever stands before it, and
    nowhere else. The text is its pieces with these marks between them,
    one mark between two pieces, and no piece holds a mark; a text without
    a mark is one piece; and the first piece of a text ends at its first
    mark, the rest being cut in the same way. The text Mr. Smith spoke is
    so cut in two at the full stop of the abbreviation. *)
Theorem sentences_split_at_every_terminator (noteContent : jsstring) :
  (exists marks,
     forallb FirstSentences.isTerminator marks = true
     /\ length (FirstSentences.sentences noteContent) = S (length marks)
     /\ noteContent = weave (FirstSentences.sentences noteContent) marks)
  /\ forallb (forallb (fun c => negb (FirstSentences.isTerminator c)))
             (FirstSentences.sentences noteContent) = true
  /\ length (FirstSentences.sentences noteContent)
     = S (length (filter FirstSentences.isTerminator noteContent))
  /\ concat (FirstSentences.sentences noteContent)
     = filter (fun c => negb (FirstSentences.isTerminator c)) noteContent
  /\ (forall piece,
        forallb (fun c => negb (FirstSentences.isTerminator c)) piece = true ->
        FirstSentences.sentences piece = [piece])
  /\ (forall piece mark rest,
        forallb (fun c => negb (FirstSentences.isTerminator c)) piece = true ->
        FirstSentences.isTerminator mark = true ->
        FirstSentences.sentences (piece ++ mark :: rest)
        = piece :: FirstSentences.sentences rest)
  /\ FirstSentences.sentences (lit "Mr. Smith spoke")
     = [lit "Mr"; lit " Smith spoke"].
Proof.
  destruct (splitOn_spec FirstSentences.isTerminator noteContent)
    as [Hlen [Hcat Hfree]].
  split; [exact (splitOn_weave FirstSentences.isTerminator noteContent)|].
  split; [exact Hfree|]. split; [exact Hlen|]. split; [exact Hcat|].
  split; [intros piece Hp; exact (splitOn_free _ piece Hp)|].
  split; [|vm_compute; reflexivity].
  intros piece mark rest Hp Hm.
  exact (splitOn_app FirstSentences.isTerminator piece rest mark Hp Hm).
Qed.

(** C3, as the specification has it, fails: the text Mr. Smith spoke is
    cut at the full stop of the abbreviation. *)
Lemma abbreviation_is_split :
  FirstSentences.sentences (lit "Mr. Smith spoke")
  = [lit "Mr"; lit " Smith spoke"].
Proof.
  vm_compute. reflexivity.
Qed.

Lemma sentencesToUse_length
  (settings : GeminiTitleGeneratorSettings) (noteContent : jsstring) :
  (0 <= numberOfSentences settings)%Z ->
  length (FirstSentences.sentencesToUse settings noteContent)
  = Nat.min (Z.to_nat (numberOfSentences settings))
            (length (FirstSentences.validSentences noteContent)).
Proof.
  intros HK. apply slice0_length. exact HK.
Qed.

(** C6. With a positive sentence count K the selection has at most
    min(K, N) sentences, N the number of valid sentences, and it is all
    of them when N is less than K. *)
Theorem selection_is_bounded
  (settings : GeminiTitleGeneratorSettings) (noteContent : jsstring)
  (HK : (0 < numberOfSentences settings)%Z) :
  (Z.of_nat (length (FirstSentences.sentencesToUse settings noteContent))
   <= Z.min (numberOfSentences settings)
            (Z.of_nat (length (FirstSentences.validSentences noteContent))))%Z
  /\ ((Z.of_nat (length (FirstSentences.validSentences noteContent))
       < numberOfSentences settings)%Z ->
      FirstSentences.sentencesToUse settings noteContent
      = FirstSentences.validSentences noteContent).
Proof.
  split.
  - rewrite sentencesToUse_length by lia. lia.
  - intros HN. apply slice0_all. lia.
Qed.

Lemma selection_is_bounded_witness :
  (Z.of_nat (length (FirstSentences.sentencesToUse
                       (Example.settings (lit "key") 2) Example.pets))
   <= Z.min 2 (Z.of_nat (length (FirstSentences.validSentences
                                   Example.pets))))%Z
  /\ ((Z.of_nat (length (FirstSentences.validSentences Example.pets)) < 2)%Z
      -> FirstSentences.sentencesToUse (Example.settings (lit "key") 2)
           Example.pets
         = FirstSentences.validSentences Example.pets).
Proof.
  apply (selection_is_bounded (Example.settings (lit "key") 2) Example.pets).
  simpl. lia.
Defined.

(** The positions are a decoration: without them the positioned
    selection is the selection of the source. *)
Lemma sentencesToUseAt_erase
  (settings : GeminiTitleGeneratorSettings) (noteContent : jsstring) :
  map snd (FirstSentences.sentencesToUseAt settings noteContent)
  = FirstSentences.sentencesToUse settings noteContent.
Proof.
  unfold FirstSentences.sentencesToUseAt, FirstSentences.sentencesToUse,
    FirstSentences.validSentencesAt, FirstSentences.validSentences,
    FirstSentences.positioned.
  rewrite slice0_map.
  rewrite (filter_map_snd (fun s => (3 <=? length (splitWhiteSpace s))%nat)).
  rewrite (filter_map_snd (A:=nat) (B:=jsstring)
             (fun s : jsstring => (0 <? length s)%nat)).
  rewrite <- (length_map trim (FirstSentences.sentences noteContent)).
  rewrite combine_seq_snd. reflexivity.
Qed.

Lemma sentencesToUseAt_ascend
  (settings : GeminiTitleGeneratorSettings) (noteContent : jsstring) :
  StronglySorted (fun a b : nat * jsstring => (fst a < fst b)%nat)
                 (FirstSentences.sentencesToUseAt settings noteContent).
Proof.
  unfold FirstSentences.sentencesToUseAt.
  destruct (slice0_firstn (numberOfSentences settings)
              (FirstSentences.validSentencesAt noteContent)) as [n ->].
  apply StronglySorted_firstn.
  unfold FirstSentences.validSentencesAt.
  do 2 apply StronglySorted_filter.
  unfold FirstSentences.positioned.
  rewrite <- (length_map trim (FirstSentences.sentences noteContent)).
  apply positions_ascend.
Qed.

Lemma sentencesToUseAt_lookup
  (settings : GeminiTitleGeneratorSettings) (noteContent : jsstring)
  (i p : nat) (s : jsstring) :
  nth_error (FirstSentences.sentencesToUseAt settings noteContent) i
  = Some (p, s) ->
  nth_error (map trim (FirstSentences.sentences noteContent)) p = Some s.
Proof.
  intros Hi. apply nth_error_In in Hi.
  unfold FirstSentences.sentencesToUseAt in Hi.
  destruct (slice0_firstn (numberOfSentences settings)
              (FirstSentences.validSentencesAt noteContent)) as [n E].
  rewrite E in Hi.
  assert (Hin : In (p, s) (FirstSentences.validSentencesAt noteContent)).
  { rewrite <- (firstn_skipn n (FirstSentences.validSentencesAt noteContent)).
    apply in_or_app. left. exact Hi. }
  unfold FirstSentences.validSentencesAt in Hin.
  apply filter_In in Hin. destruct Hin as [Hin _].
  apply filter_In in Hin. destruct Hin as [Hin _].
  unfold FirstSentences.positioned in Hin.
  rewrite <- (length_map trim (FirstSentences.sentences noteContent)) in Hin.
  apply combine_seq_lookup in Hin. destruct Hin as [_ Hnth].
  rewrite Nat.sub_0_r in Hnth. exact Hnth.
Qed.

Lemma sorted_positions (B : Type) (l : list (nat * B)) :
  StronglySorted (fun a b : nat * B => (fst a < fst b)%nat) l ->
  StronglySorted lt (map fst l).
Proof.
  induction 1 as [|a l Hs IH Hall]; simpl; constructor; [exact IH|].
  rewrite Forall_forall in *. intros p Hp.
  apply in_map_iff in Hp. destruct Hp as [b [<- Hb]]. exact (Hall b Hb).
Qed.

Lemma Forall2_fst_snd (B : Type) (P : nat -> B -> Prop)
  (l : list (nat * B)) :
  (forall p b, In (p, b) l -> P p b) ->
  Forall2 P (map fst l) (map snd l).
Proof.
  induction l as [|[p b] l IH]; simpl; intros H; constructor.
  - apply H. left. reflexivity.
  - apply IH. intros p' b' Hin. apply H. right. exact Hin.
Qed.

(** The first-sentences variant selects in the order of the parse: the
    selected sentences are the trimmed candidates at strictly ascending
    positions of [sentences]. *)
Theorem first_sentences_keep_parse_order
  (settings : GeminiTitleGeneratorSettings) (noteContent : jsstring) :
  exists positions,
    StronglySorted lt positions
    /\ Forall2 (fun p s =>
                  nth_error (map trim (FirstSentences.sentences noteContent)) p
                  = Some s)
               positions
               (FirstSentences.sentencesToUse settings noteContent).
Proof.
  exists (map fst (FirstSentences.sentencesToUseAt settings noteContent)).
  split.
  - apply sorted_positions. apply sentencesToUseAt_ascend.
  - rewrite <- sentencesToUseAt_erase. apply Forall2_fst_snd.
    intros p s Hin. apply In_nth_error in Hin. destruct Hin as [i Hi].
    exact (sentencesToUseAt_lookup settings noteContent i p s Hi).
Qed.

(** In [src/main.ts] the order is the summarizer's: it is asked to sort
    by occurrence and its sentences are joined as they come. *)
Lemma summary_is_joined_as_returned
  (host : Collaborators) (settings : GeminiTitleGeneratorSettings)
  (noteContent : jsstring) (first : jsstring) (others : list jsstring) :
  newSummarizer host (Main.config settings) = Some tt ->
  summarize host (Main.config settings)
    (Main.processedNoteContent noteContent) = Some (Some (first :: others)) ->
  sortBy (Main.config settings) = SORT_OCCURENCE
  /\ Main.extractedSentences host settings noteContent
     = ([Summarize (Main.config settings)
           (Main.processedNoteContent noteContent)],
        Normal (join (lit " ") (first :: others))).
Proof.
  intros Hb H. split; [reflexivity|].
  unfold Main.extractedSentences, call. rewrite Hb, H. reflexivity.
Qed.

(** The context of the first-sentences variant for the scenario text with
    K = 2: the first two valid sentences, a full stop after each. *)
Example first_sentences_of_the_scenario :
  FirstSentences.extractedSentences (Example.settings (lit "key") 2)
    (lit "Cats are mammals. Dogs are mammals too. Both are popular pets. Birds can fly.")
  = ([], Normal (Some (lit "Cats are mammals. Dogs are mammals too."))).
Proof. vm_compute. reflexivity. Qed.

(* ================================================================== *)
(** ** Strings: trimming twice, splitting and joining *)
(* ================================================================== *)

Lemma trimStart_head (s : jsstring) :
  trimStart s = []
  \/ exists c r, trimStart s = c :: r /\ isWhiteSpace c = false.
Proof.
  induction s as [|c r IH]; simpl; [left; reflexivity|].
  destruct (isWhiteSpace c) eqn:Hc; [exact IH|].
  right. exists c, r. split; [reflexivity | exact Hc].
Qed.

Lemma trimStart_idempotent (s : jsstring) :
  trimStart (trimStart s) = trimStart s.
Proof.
  destruct (trimStart_head s) as [-> | [c [r [-> Hc]]]]; simpl;
    [reflexivity|]. rewrite Hc. reflexivity.
Qed.

Lemma trimEnd_prefix (s : jsstring) :
  exists blanks,
    forallb isWhiteSpace blanks = true /\ s = trimEnd s ++ blanks.
Proof.
  unfold trimEnd. destruct (trimStart_suffix (rev s)) as [b [Hb E]].
  exists (rev b). split.
  - rewrite forallb_forall in *. intros x Hx. apply Hb, in_rev. exact Hx.
  - rewrite <- rev_app_distr, <- E, rev_involutive. reflexivity.
Qed.

Lemma trimEnd_idempotent (s : jsstring) :
  trimEnd (trimEnd s) = trimEnd s.
Proof.
  unfold trimEnd. rewrite rev_involutive, trimStart_idempotent. reflexivity.
Qed.

(** Trimming a trimmed string changes nothing. *)
Lemma trim_idempotent (s : jsstring) : trim (trim s) = trim s.
Proof.
  assert (Hstart : trimStart (trim s) = trim s).
  { unfold trim. destruct (trimEnd_prefix (trimStart s)) as [b [_ E]].
    destruct (trimEnd (trimStart s)) as [|c r] eqn:Eu; [reflexivity|].
    destruct (trimStart_head s) as [H0 | [c' [r' [H1 Hc]]]].
    - rewrite H0 in E. discriminate.
    - rewrite H1 in E. simpl in E. inversion E; subst c'.
      simpl. rewrite Hc. reflexivity. }
  unfold trim at 1. rewrite Hstart. unfold trim. apply trimEnd_idempotent.
Qed.

Lemma trimStart_forallb (p : char -> bool) (s : jsstring) :
  forallb p s = true -> forallb p (trimStart s) = true.
Proof.
  destruct (trimStart_suffix s) as [b [_ E]]. intros H.
  rewrite E, forallb_app in H. apply andb_true_iff in H. tauto.
Qed.

(** What holds of every code unit of a string holds of every code unit of
    the trimmed string. *)
Lemma trim_forallb (p : char -> bool) (s : jsstring) :
  forallb p s = true -> forallb p (trim s) = true.
Proof.
  intros H. unfold trim.
  destruct (trimEnd_prefix (trimStart s)) as [b [_ E]].
  apply (trimStart_forallb p) in H.
  rewrite E, forallb_app in H. apply andb_true_iff in H. tauto.
Qed.

Lemma join_cons (sep x : jsstring) (rest : list jsstring) :
  rest <> [] -> join sep (x :: rest) = x ++ sep ++ join sep rest.
Proof.
  destruct rest; [congruence | reflexivity].
Qed.

(** Joining the pieces of a split with the separator gives the string
    back. *)
Lemma join_splitOn (c0 : char) (s : jsstring) :
  join [c0] (splitOn (N.eqb c0) s) = s.
Proof.
  induction s as [|c r IH]; [reflexivity|].
  cbn [splitOn]. destruct (c0 =? c) eqn:Ec.
  - apply N.eqb_eq in Ec. subst c.
    rewrite join_cons by apply splitOn_not_nil. rewrite IH. reflexivity.
  - destruct (splitOn (N.eqb c0) r) as [|p ps] eqn:E.
    + exfalso. exact (splitOn_not_nil _ _ E).
    + destruct ps as [|q qs]; simpl in *; rewrite <- IH; reflexivity.
Qed.

(** Splitting a join of pieces that hold no separator gives the pieces
    back. *)
Lemma splitOn_join (c0 : char) (pieces : list jsstring) :
  pieces <> [] ->
  forallb (forallb (fun c => negb (c0 =? c))) pieces = true ->
  splitOn (N.eqb c0) (join [c0] pieces) = pieces.
Proof.
  induction pieces as [|x rest IH]; intros Hne Hfree; [congruence|].
  simpl in Hfree. apply andb_true_iff in Hfree. destruct Hfree as [Hx Hrest].
  destruct rest as [|y rest'].
  - simpl. apply splitOn_free. exact Hx.
  - rewrite join_cons by discriminate.
    change ([c0] ++ join [c0] (y :: rest')) with (c0 :: join [c0] (y :: rest')).
    rewrite splitOn_app; [|exact Hx | apply N.eqb_refl].
    rewrite IH; [reflexivity | discriminate | exact Hrest].
Qed.

Lemma forallb_filter_id {A : Type} (p : A -> bool) (l : list A) :
  forallb p l = true -> filter p l = l.
Proof.
  induction l as [|a l IH]; simpl; intros H; [reflexivity|].
  apply andb_true_iff in H. destruct H as [Ha Hl].
  rewrite Ha, (IH Hl). reflexivity.
Qed.

Lemma forallb_filter_keeps {A : Type} (p q : A -> bool) (l : list A) :
  forallb p l = true -> forallb p (filter q l) = true.
Proof.
  rewrite !forallb_forall. intros H x Hx. apply H.
  apply filter_In in Hx. tauto.
Qed.

Lemma filter_idempotent {A : Type} (p : A -> bool) (l : list A) :
  filter p (filter p l) = filter p l.
Proof.
  apply forallb_filter_id. apply forallb_forall. intros x Hx.
  apply filter_In in Hx. tauto.
Qed.

(* ================================================================== *)
(** ** The image filter *)
(* ================================================================== *)

Lemma lines_free (noteContent : jsstring) :
  forallb (forallb (fun c => negb (10 =? c))) (Main.lines noteContent) = true.
Proof.
  unfold Main.lines.
  destruct (splitOn_spec (N.eqb 10) noteContent) as [_ [_ H]]. exact H.
Qed.

(** The lines of the filtered text are the lines of the note that are not
    image embeddings, in their order, as long as one such line is left. *)
Theorem image_filter_keeps_the_other_lines
  (noteContent : jsstring)
  (Hleft : Main.filteredLines noteContent <> []) :
  Main.lines (Main.processedNoteContent noteContent)
  = filter (fun line => negb (test Main.imageEmbeddingRegex (trim line)))
           (Main.lines noteContent).
Proof.
  unfold Main.processedNoteContent, Main.lines at 1.
  apply splitOn_join; [exact Hleft|].
  unfold Main.filteredLines. apply forallb_filter_keeps. apply lines_free.
Qed.

Lemma image_filter_keeps_the_other_lines_witness :
  Main.lines (Main.processedNoteContent
                (lit "Intro" ++ [10] ++ lit "![[a.png]]" ++ [10] ++ lit "End"))
  = [lit "Intro"; lit "End"].
Proof.
  apply (image_filter_keeps_the_other_lines
           (lit "Intro" ++ [10] ++ lit "![[a.png]]" ++ [10] ++ lit "End")).
  vm_compute. discriminate.
Defined.

Lemma processed_without_images (noteContent : jsstring) :
  forallb (fun line => negb (test Main.imageEmbeddingRegex (trim line)))
          (Main.lines noteContent) = true ->
  Main.processedNoteContent noteContent = noteContent.
Proof.
  intros Hnone. unfold Main.processedNoteContent, Main.filteredLines.
  rewrite (forallb_filter_id _ _ Hnone). apply join_splitOn.
Qed.

(** A note without image lines goes to the summarizer as it is. *)
Theorem note_without_images_is_unchanged
  (noteContent : jsstring)
  (Hnone : forallb (fun line =>
                      negb (test Main.imageEmbeddingRegex (trim line)))
                   (Main.lines noteContent) = true) :
  Main.processedNoteContent noteContent = noteContent.
Proof.
  exact (processed_without_images noteContent Hnone).
Qed.

Lemma note_without_images_is_unchanged_witness :
  Main.processedNoteContent Example.pets = Example.pets.
Proof.
  apply (note_without_images_is_unchanged Example.pets).
  vm_compute. reflexivity.
Defined.

(** Filtering a filtered text removes nothing more. *)
Theorem image_filter_is_idempotent (noteContent : jsstring) :
  Main.processedNoteContent (Main.processedNoteContent noteContent)
  = Main.processedNoteContent noteContent.
Proof.
  destruct (Main.filteredLines noteContent) as [|l r] eqn:E.
  - assert (Hp : Main.processedNoteContent noteContent = [])
      by (unfold Main.processedNoteContent; rewrite E; reflexivity).
    rewrite Hp. reflexivity.
  - assert (Hleft : Main.filteredLines noteContent <> [])
      by (rewrite E; discriminate).
    unfold Main.processedNoteContent at 1. unfold Main.filteredLines at 1.
    unfold Main.processedNoteContent, Main.lines at 1.
    rewrite splitOn_join;
      [|exact Hleft
       |unfold Main.filteredLines; apply forallb_filter_keeps, lines_free].
    unfold Main.filteredLines. rewrite filter_idempotent. reflexivity.
Qed.

(** A blank line, and so a blank note, holds no image embedding. *)
Lemma blank_line_is_kept (line : jsstring) :
  isEmpty (trim line) = true ->
  negb (test Main.imageEmbeddingRegex (trim line)) = true.
Proof.
  intros H. apply isEmpty_nil in H. rewrite H. reflexivity.
Qed.

Lemma blank_pieces (sep : char -> bool) (s : jsstring) :
  forallb isWhiteSpace s = true ->
  forallb (fun p => forallb isWhiteSpace p) (splitOn sep s) = true.
Proof.
  intros H. apply forallb_forall. intros p Hp.
  apply forallb_forall. intros c Hc.
  rewrite forallb_forall in H. apply H.
  exact (splitOn_In sep s p c Hp Hc).
Qed.

Lemma blank_note_processed (noteContent : jsstring) :
  isEmpty (trim noteContent) = true ->
  Main.processedNoteContent noteContent = noteContent.
Proof.
  intros H. apply processed_without_images.
  apply isEmpty_nil, trim_nil in H.
  pose proof (blank_pieces (N.eqb 10) noteContent H) as Hp.
  unfold Main.lines. rewrite forallb_forall in *. intros line Hl.
  apply blank_line_is_kept. apply isEmpty_nil, trim_nil. exact (Hp line Hl).
Qed.

(* ================================================================== *)
(** ** [generateTitle]: every way it ends *)
(* ================================================================== *)

Lemma validTitle_some (j : json) (raw : jsstring) :
  Main.validTitle j = Some raw ->
  exists fields,
    j = JObject fields
    /\ assoc (lit "title") fields = Some (JString raw)
    /\ isEmpty raw = false.
Proof.
  unfold Main.validTitle.
  destruct j as [|b|q|s|items|fields]; simpl; try discriminate.
  - destruct b; discriminate.
  - destruct (negb (Qeq_bool q 0)); discriminate.
  - destruct (negb (isEmpty s)); discriminate.
  - destruct (assoc (lit "title") fields) as [t|] eqn:Ha; [|discriminate].
    destruct (truthy t) eqn:Ht; [|discriminate].
    destruct t as [|b|q|s|items|fields']; try discriminate.
    intros E. inversion E; subst. exists fields.
    simpl in Ht. apply negb_true_iff in Ht. auto.
Qed.

(** The ways [readResponse] ends: it throws without a call, or shows one
    notice and gives [null], or gives the trimmed title without a call. *)
Lemma readResponse_cases (host : Collaborators) (result : option response) :
  Main.readResponse host result = ([], Thrown)
  \/ (exists message,
        Main.readResponse host result = ([Notice message], Normal None))
  \/ (exists text fields raw,
        result = Some (Text text)
        /\ JSON_parse host text = Some (JObject fields)
        /\ assoc (lit "title") fields = Some (JString raw)
        /\ isEmpty raw = false
        /\ Main.readResponse host result = ([], Normal (Some (trim raw)))).
Proof.
  destruct result as [[text|]|]; simpl.
  - destruct (JSON_parse host text) as [j|] eqn:Ep; simpl.
    + destruct (Main.validTitle j) as [raw|] eqn:Ev; simpl.
      * right. right. destruct (validTitle_some j raw Ev) as [fields [-> [Ht Hr]]].
        exists text, fields, raw. auto.
      * right. left. eauto.
    + right. left. eauto.
  - left. reflexivity.
  - right. left. eauto.
Qed.

(** The ways [generateTitle] ends, with all its calls. *)
Lemma generateTitle_cases
  (host : Collaborators) (settings : GeminiTitleGeneratorSettings)
  (noteContent : jsstring) :
  (isEmpty (apiKey settings) = true
   /\ Main.generateTitle host settings noteContent
      = ([Notice Main.msgNoApiKey], Normal None))
  \/ exists log extracted,
       isEmpty (apiKey settings) = false
       /\ Main.extractedSentences host settings noteContent
          = (log, Normal extracted)
       /\ ((isEmpty (trim extracted) = true
            /\ exists message,
                 Main.generateTitle host settings noteContent
                 = (log ++ [Notice message], Normal None))
           \/ (isEmpty (trim extracted) = false
               /\ exists message,
                    Main.generateTitle host settings noteContent
                    = (log ++ [GenerateContent (apiKey settings)
                                 (modelId settings) (Main.prompt extracted);
                               Notice message],
                       Normal None))
           \/ (isEmpty (trim extracted) = false
               /\ exists text fields raw,
                    generateContent host (apiKey settings) (modelId settings)
                      (Main.prompt extracted) = Some (Some (Text text))
                    /\ JSON_parse host text = Some (JObject fields)
                    /\ assoc (lit "title") fields = Some (JString raw)
                    /\ isEmpty raw = false
                    /\ Main.generateTitle host settings noteContent
                       = (log ++ [GenerateContent (apiKey settings)
                                    (modelId settings)
                                    (Main.prompt extracted)],
                          Normal (Some (trim raw))))).
Proof.
  remember (Main.generateTitle host settings noteContent) as G eqn:EG.
  unfold Main.generateTitle in EG.
  destruct (isEmpty (apiKey settings)) eqn:Hkey;
    [left; subst G; auto|].
  right.
  destruct (extractedSentences_completes host settings noteContent)
    as [log [extracted [E _]]].
  exists log, extracted. split; [reflexivity|]. split; [exact E|].
  rewrite E in EG. unfold bind at 1 in EG. cbv beta in EG.
  rewrite !length_zero_isEmpty, blank_orb in EG.
  destruct (isEmpty (trim extracted)) eqn:Hb.
  - left. split; [reflexivity|].
    destruct (isEmpty (trim noteContent)); subst G; eexists; reflexivity.
  - right. unfold call in EG.
    destruct (generateContent host (apiKey settings) (modelId settings)
                (Main.prompt extracted)) as [result|] eqn:Hg.
    + unfold bind in EG.
      destruct (readResponse_cases host result)
        as [Hr | [[message Hr] | [text [fields [raw [-> [Hp [Ht [Hraw Hr]]]]]]]]];
        rewrite Hr in EG; subst G.
      * left. split; [reflexivity|]. exists Main.msgGenerationError.
        simpl. rewrite ?app_nil_r, <- ?app_assoc. reflexivity.
      * left. split; [reflexivity|]. exists message.
        simpl. rewrite ?app_nil_r, <- ?app_assoc. reflexivity.
      * right. split; [reflexivity|]. exists text, fields, raw.
        repeat (split; [assumption || reflexivity|]).
        simpl. rewrite ?app_nil_r. reflexivity.
    + subst G. left. split; [reflexivity|]. exists Main.msgGenerationError.
      simpl. rewrite ?app_nil_r, <- ?app_assoc. reflexivity.
Qed.

(** [generateTitle] never throws, and when it gives [null] its last call
    is a notice: every failure is shown to the user. *)
Theorem generateTitle_catches_and_reports
  (host : Collaborators) (settings : GeminiTitleGeneratorSettings)
  (noteContent : jsstring) :
  exists log result,
    Main.generateTitle host settings noteContent = (log, Normal result)
    /\ (result = None -> exists before message,
                           log = before ++ [Notice message]).
Proof.
  destruct (generateTitle_cases host settings noteContent)
    as [[_ E] | [log [ex [_ [_ [[_ [m E]] | [[_ [m E]]
                                 | [_ [text [fields [raw [_ [_ [_ [_ E]]]]]]]]]]]]]]];
    rewrite E; eexists; eexists; (split; [reflexivity|]); intros Hn.
  - exists [], Main.msgNoApiKey. reflexivity.
  - exists log, m. reflexivity.
  - exists (log ++ [GenerateContent (apiKey settings) (modelId settings)
                      (Main.prompt ex)]), m.
    rewrite <- app_assoc. reflexivity.
  - discriminate.
Qed.

(** A title comes back only from a response whose JSON object has a
    non-empty string as [title]: the result is that string trimmed, the
    oracle call is the last call, and no notice follows it. *)
Theorem generateTitle_title_comes_from_the_oracle
  (host : Collaborators) (settings : GeminiTitleGeneratorSettings)
  (noteContent : jsstring) (log : list event) (generatedTitle : jsstring)
  (Htitle : Main.generateTitle host settings noteContent
            = (log, Normal (Some generatedTitle))) :
  exists before extracted text fields raw,
    Main.extractedSentences host settings noteContent
    = (before, Normal extracted)
    /\ log = before ++ [GenerateContent (apiKey settings) (modelId settings)
                          (Main.prompt extracted)]
    /\ generateContent host (apiKey settings) (modelId settings)
         (Main.prompt extracted) = Some (Some (Text text))
    /\ JSON_parse host text = Some (JObject fields)
    /\ assoc (lit "title") fields = Some (JString raw)
    /\ isEmpty raw = false
    /\ generatedTitle = trim raw.
Proof.
  destruct (generateTitle_cases host settings noteContent)
    as [[_ E] | [before [ex [_ [Hex [[_ [m E]] | [[_ [m E]]
                                 | [_ [text [fields [raw [Hg [Hp [Ht [Hr E]]]]]]]]]]]]]]];
    rewrite E in Htitle; inversion Htitle; subst.
  exists before, ex, text, fields, raw. auto 10.
Qed.

Lemma generateTitle_title_comes_from_the_oracle_witness :
  exists before extracted text fields raw,
    Main.extractedSentences
      (Example.host (Some (Some [lit "Cats are mammals."]))
         (Some (Some (Text (Example.titleText (lit "  My Great Note  ")))))
         Example.pets)
      (Example.settings (lit "key") 8) Example.pets
    = (before, Normal extracted)
    /\ [Summarize (Main.config (Example.settings (lit "key") 8)) Example.pets;
        GenerateContent (lit "key") (lit "gemini-2.5-flash-preview-04-17")
          (Main.prompt (lit "Cats are mammals."))]
       = before ++ [GenerateContent (lit "key")
                      (lit "gemini-2.5-flash-preview-04-17")
                      (Main.prompt extracted)]
    /\ Some (Some (Text (Example.titleText (lit "  My Great Note  "))))
       = Some (Some (Text text))
    /\ Example.parse text = Some (JObject fields)
    /\ assoc (lit "title") fields = Some (JString raw)
    /\ isEmpty raw = false
    /\ lit "My Great Note" = trim raw.
Proof.
  apply (generateTitle_title_comes_from_the_oracle
           (Example.host (Some (Some [lit "Cats are mammals."]))
              (Some (Some (Text (Example.titleText (lit "  My Great Note  ")))))
              Example.pets)
           (Example.settings (lit "key") 8) Example.pets).
  vm_compute. reflexivity.
Defined.

Lemma extractedSentences_externals
  (host : Collaborators) (settings : GeminiTitleGeneratorSettings)
  (noteContent : jsstring) :
  (newSummarizer host (Main.config settings) = None
   /\ filter Handlers.isExternal
             (calls (Main.extractedSentences host settings noteContent)) = [])
  \/ (newSummarizer host (Main.config settings) = Some tt
      /\ filter Handlers.isExternal
                (calls (Main.extractedSentences host settings noteContent))
         = [Summarize (Main.config settings)
              (Main.processedNoteContent noteContent)]).
Proof.
  unfold Main.extractedSentences, call.
  destruct (newSummarizer host (Main.config settings)) as [[]|];
    [right | left; split; reflexivity].
  split; [reflexivity|].
  destruct (summarize host (Main.config settings)
              (Main.processedNoteContent noteContent))
    as [[[|s l]|]|]; reflexivity.
Qed.

(** Of its collaborators [generateTitle] calls the summarizer at most
    once, with the filtered note, and only when the summarizer could be
    built; after that it calls the oracle at most once, with the key and
    the model of the settings and the prompt made of the extracted
    sentences; it reads and renames no file. *)
Theorem generateTitle_call_budget
  (host : Collaborators) (settings : GeminiTitleGeneratorSettings)
  (noteContent : jsstring) :
  exists summarizing asking,
    filter Handlers.isExternal
           (calls (Main.generateTitle host settings noteContent))
    = summarizing ++ asking
    /\ (summarizing = []
        \/ (newSummarizer host (Main.config settings) = Some tt
            /\ summarizing
               = [Summarize (Main.config settings)
                    (Main.processedNoteContent noteContent)]))
    /\ (asking = []
        \/ exists extracted,
             outcome (Main.extractedSentences host settings noteContent)
             = Normal extracted
             /\ asking
                = [GenerateContent (apiKey settings) (modelId settings)
                     (Main.prompt extracted)]).
Proof.
  assert (Hx : exists summarizing,
             filter Handlers.isExternal
                    (calls (Main.extractedSentences host settings
                              noteContent)) = summarizing
             /\ (summarizing = []
                 \/ (newSummarizer host (Main.config settings) = Some tt
                     /\ summarizing
                        = [Summarize (Main.config settings)
                             (Main.processedNoteContent noteContent)]))).
  { destruct (extractedSentences_externals host settings noteContent)
      as [[_ H] | [Hb H]]; eexists; (split; [exact H|]); auto. }
  destruct Hx as [summarizing [Hx Hs]].
  destruct (generateTitle_cases host settings noteContent)
    as [[_ E] | [log [ex [_ [Hex [[_ [m E]] | [[_ [m E]]
                                 | [_ [text [fields [raw [_ [_ [_ [_ E]]]]]]]]]]]]]]];
    rewrite E; try rewrite Hex in Hx; unfold calls in *; simpl fst in *.
  - exists [], []. split; [reflexivity|]. split; left; reflexivity.
  - exists summarizing, []. rewrite filter_app, Hx.
    split; [reflexivity|]. split; [exact Hs | left; reflexivity].
  - exists summarizing. eexists. rewrite filter_app, Hx.
    split; [reflexivity|]. split; [exact Hs|].
    right. exists ex. split; [rewrite Hex|]; reflexivity.
  - exists summarizing. eexists. rewrite filter_app, Hx.
    split; [reflexivity|]. split; [exact Hs|].
    right. exists ex. split; [rewrite Hex|]; reflexivity.
Qed.

(** When the oracle call throws, or the text of its response cannot be
    read, [generateTitle] shows the notice of an error after the call and
    gives [null]. *)
Theorem generateTitle_oracle_error
  (host : Collaborators) (settings : GeminiTitleGeneratorSettings)
  (noteContent : jsstring) (log : list event) (extracted : jsstring)
  (Hkey : isEmpty (apiKey settings) = false)
  (Hextract : Main.extractedSentences host settings noteContent
              = (log, Normal extracted))
  (Hcontext : isEmpty (trim extracted) = false)
  (Hthrows : generateContent host (apiKey settings) (modelId settings)
               (Main.prompt extracted) = None
             \/ generateContent host (apiKey settings) (modelId settings)
                  (Main.prompt extracted) = Some (Some TextThrows)) :
  Main.generateTitle host settings noteContent
  = (log ++ [GenerateContent (apiKey settings) (modelId settings)
               (Main.prompt extracted);
             Notice Main.msgGenerationError],
     Normal None).
Proof.
  unfold Main.generateTitle. rewrite Hkey, Hextract.
  unfold bind at 1. cbv beta.
  rewrite length_zero_isEmpty, blank_orb, Hcontext. unfold call.
  destruct Hthrows as [H | H]; rewrite H; simpl;
    rewrite ?app_nil_r, <- ?app_assoc; reflexivity.
Qed.

Lemma generateTitle_oracle_error_witness :
  Main.generateTitle
    (Example.host (Some (Some [lit "Cats are mammals."])) None Example.pets)
    (Example.settings (lit "key") 8) Example.pets
  = ([Summarize (Main.config (Example.settings (lit "key") 8)) Example.pets]
     ++ [GenerateContent (lit "key") (lit "gemini-2.5-flash-preview-04-17")
           (Main.prompt (lit "Cats are mammals."));
         Notice Main.msgGenerationError],
     Normal None).
Proof.
  apply (generateTitle_oracle_error
           (Example.host (Some (Some [lit "Cats are mammals."])) None
              Example.pets)
           (Example.settings (lit "key") 8) Example.pets
           [Summarize (Main.config (Example.settings (lit "key") 8))
              Example.pets]
           (lit "Cats are mammals.")).
  - reflexivity.
  - vm_compute. reflexivity.
  - vm_compute. reflexivity.
  - left. reflexivity.
Defined.

(** For a blank note, once the summarizer cannot be built, throws or has
    no sentence, [generateTitle] shows the notice of the fallback, then
    that the note is empty, and gives [null]; the oracle is not called,
    and the summarizer only when it could be built. *)
Theorem generateTitle_blank_note
  (host : Collaborators) (settings : GeminiTitleGeneratorSettings)
  (noteContent : jsstring)
  (Hkey : isEmpty (apiKey settings) = false)
  (Hblank : isEmpty (trim noteContent) = true)
  (Hzero : newSummarizer host (Main.config settings) = None
           \/ summarize host (Main.config settings) noteContent
              = Some (Some [])
           \/ summarize host (Main.config settings) noteContent = Some None
           \/ summarize host (Main.config settings) noteContent = None) :
  exists before,
    ((newSummarizer host (Main.config settings) = None
      /\ before = [Notice Main.msgExtractionError])
     \/ (newSummarizer host (Main.config settings) = Some tt
         /\ exists message,
              (message = Main.msgNoKeySentences
               \/ message = Main.msgExtractionError)
              /\ before = [Summarize (Main.config settings) noteContent;
                           Notice message]))
    /\ Main.generateTitle host settings noteContent
       = (before ++ [Notice Main.msgNoteEmpty], Normal None).
Proof.
  pose proof (blank_note_processed noteContent Hblank) as Hp.
  rewrite <- Hp in Hzero.
  assert (Hf : isEmpty (trim (Main.fallback noteContent)) = true).
  { unfold Main.fallback, substring0. rewrite Hp, Hblank. simpl.
    apply isEmpty_nil, trim_nil. apply isEmpty_nil, trim_nil in Hblank.
    rewrite forallb_forall in *. intros c Hc. apply Hblank.
    rewrite <- (firstn_skipn 500 noteContent). apply in_or_app. tauto. }
  assert (Hend : forall before,
             Main.extractedSentences host settings noteContent
             = (before, Normal (Main.fallback noteContent)) ->
             Main.generateTitle host settings noteContent
             = (before ++ [Notice Main.msgNoteEmpty], Normal None)).
  { intros before E. unfold Main.generateTitle. rewrite Hkey, E.
    unfold bind at 1. cbv beta.
    rewrite !length_zero_isEmpty, blank_orb, Hf, Hblank. reflexivity. }
  destruct (extractedSentences_fallback host settings noteContent Hzero)
    as [[Hb E] | [Hb [message [Hm E]]]].
  - exists [Notice Main.msgExtractionError].
    split; [left; auto | exact (Hend _ E)].
  - rewrite Hp in E. eexists. split; [|exact (Hend _ E)].
    right. split; [exact Hb|]. exists message. auto.
Qed.

Lemma generateTitle_blank_note_witness :
  exists before,
    ((newSummarizer Example.refusing
        (Main.config (Example.settings (lit "key") 0)) = None
      /\ before = [Notice Main.msgExtractionError])
     \/ (newSummarizer Example.refusing
           (Main.config (Example.settings (lit "key") 0)) = Some tt
         /\ exists message,
              (message = Main.msgNoKeySentences
               \/ message = Main.msgExtractionError)
              /\ before
                 = [Summarize (Main.config (Example.settings (lit "key") 0))
                      (lit "   ");
                    Notice message]))
    /\ Main.generateTitle Example.refusing
         (Example.settings (lit "key") 0) (lit "   ")
       = (before ++ [Notice Main.msgNoteEmpty], Normal None).
Proof.
  apply (generateTitle_blank_note Example.refusing
           (Example.settings (lit "key") 0) (lit "   ")).
  - reflexivity.
  - reflexivity.
  - left. reflexivity.
Defined.

(* ================================================================== *)
(** ** [updateNoteTitle]: the rename *)
(* ================================================================== *)

(** The ways [updateNoteTitle] ends, with all its calls. *)
Lemma updateNoteTitle_cases
  (host : Collaborators) (file : TFile) (newTitle : jsstring) :
  (exists message,
     Main.updateNoteTitle host file newTitle
     = ([Notice message], Normal false))
  \/ (renameFile host file (Main.newPath file newTitle) = Some tt
      /\ Main.updateNoteTitle host file newTitle
         = ([RenameFile file (Main.newPath file newTitle);
             Notice (Main.msgUpdated (Main.sanitizedTitle newTitle))],
            Normal true))
  \/ (renameFile host file (Main.newPath file newTitle) = None
      /\ Main.updateNoteTitle host file newTitle
         = ([RenameFile file (Main.newPath file newTitle);
             Notice Main.msgRenameError],
            Normal false)).
Proof.
  unfold Main.updateNoteTitle.
  destruct (isEmpty newTitle || Js.eqb (trim newTitle) []);
    [left; eexists; reflexivity|].
  destruct (isEmpty (Main.sanitizedTitle newTitle));
    [left; eexists; reflexivity|].
  destruct (Js.eqb (path file) (Main.newPath file newTitle));
    [left; eexists; reflexivity|].
  unfold call.
  destruct (renameFile host file (Main.newPath file newTitle)) as [[]|];
    [right; left | right; right]; split; reflexivity.
Qed.

(** A blank title sanitizes to the empty string. *)
Lemma blank_title_sanitizes_to_nothing (newTitle : jsstring) :
  isEmpty newTitle || Js.eqb (trim newTitle) [] = true ->
  Main.sanitizedTitle newTitle = [].
Proof.
  intros E. apply orb_true_iff in E. destruct E as [E | E].
  - apply isEmpty_nil in E. subst newTitle. reflexivity.
  - apply eqb_eq, trim_nil in E.
    unfold Main.sanitizedTitle. apply trim_nil.
    rewrite replace_forbidden_strips, replace_newlines_maps.
    unfold Spec.newlinesToSpaces, Spec.stripIllegal.
    rewrite forallb_forall in *. intros c Hc.
    apply in_map_iff in Hc. destruct Hc as [c' [<- Hc']].
    apply filter_In in Hc'. destruct Hc' as [Hc' _].
    destruct (existsb (N.eqb c') [10; 13]); [reflexivity|].
    exact (E c' Hc').
Qed.

Lemma guards_pass (newTitle : jsstring) :
  isEmpty (Main.sanitizedTitle newTitle) = false ->
  isEmpty newTitle || Js.eqb (trim newTitle) [] = false.
Proof.
  intros Hname.
  destruct (isEmpty newTitle || Js.eqb (trim newTitle) []) eqn:E;
    [|reflexivity].
  rewrite (blank_title_sanitizes_to_nothing newTitle E) in Hname.
  discriminate.
Qed.

(** A title that sanitizes to a name other than the current one is
    applied by one rename call to the path built from the sanitized
    title; when the host accepts it the user is told the new title and
    the result is [true]. *)
Theorem updateNoteTitle_renames
  (host : Collaborators) (file : TFile) (newTitle : jsstring)
  (Hname : isEmpty (Main.sanitizedTitle newTitle) = false)
  (Hnew : Js.eqb (path file) (Main.newPath file newTitle) = false)
  (Haccepted : renameFile host file (Main.newPath file newTitle) = Some tt) :
  Main.updateNoteTitle host file newTitle
  = ([RenameFile file (Main.newPath file newTitle);
      Notice (Main.msgUpdated (Main.sanitizedTitle newTitle))],
     Normal true).
Proof.
  unfold Main.updateNoteTitle.
  rewrite (guards_pass newTitle Hname), Hname, Hnew.
  unfold call. rewrite Haccepted. reflexivity.
Qed.

Lemma updateNoteTitle_renames_witness :
  Main.updateNoteTitle (Example.host None None Example.pets) Example.note
    (lit "Cats: and Dogs?")
  = ([RenameFile Example.note (lit "Notes/Cats and Dogs.md");
      Notice (Main.msgUpdated (lit "Cats and Dogs"))],
     Normal true).
Proof.
  apply (updateNoteTitle_renames (Example.host None None Example.pets)
           Example.note (lit "Cats: and Dogs?")).
  - vm_compute. reflexivity.
  - vm_compute. reflexivity.
  - reflexivity.
Defined.

(** When the host rejects the rename, [updateNoteTitle] catches the
    error, shows the notice of a failed rename and gives [false]; it does
    not try again. *)
Theorem updateNoteTitle_rename_rejected
  (host : Collaborators) (file : TFile) (newTitle : jsstring)
  (Hname : isEmpty (Main.sanitizedTitle newTitle) = false)
  (Hnew : Js.eqb (path file) (Main.newPath file newTitle) = false)
  (Hrejected : renameFile host file (Main.newPath file newTitle) = None) :
  Main.updateNoteTitle host file newTitle
  = ([RenameFile file (Main.newPath file newTitle);
      Notice Main.msgRenameError],
     Normal false).
Proof.
  unfold Main.updateNoteTitle.
  rewrite (guards_pass newTitle Hname), Hname, Hnew.
  unfold call. rewrite Hrejected. reflexivity.
Qed.

Lemma updateNoteTitle_rename_rejected_witness :
  Main.updateNoteTitle Example.refusing Example.note (lit "Cats and Dogs")
  = ([RenameFile Example.note (lit "Notes/Cats and Dogs.md");
      Notice Main.msgRenameError],
     Normal false).
Proof.
  apply (updateNoteTitle_rename_rejected Example.refusing
           Example.note (lit "Cats and Dogs")).
  - vm_compute. reflexivity.
  - vm_compute. reflexivity.
  - reflexivity.
Defined.

Lemma sanitizedTitle_clean (newTitle : jsstring) :
  forallb (fun c => negb (Main.isForbidden c) && negb (Main.isNewline c))
          (Main.sanitizedTitle newTitle) = true.
Proof.
  unfold Main.sanitizedTitle. apply trim_forallb.
  unfold replaceAll. apply forallb_forall. intros c Hc.
  apply in_flat_map in Hc. destruct Hc as [c1 [Hc1 Hc]].
  apply in_flat_map in Hc1. destruct Hc1 as [c0 [_ Hc1]].
  destruct (Main.isForbidden c0) eqn:Hf; [destruct Hc1|].
  destruct Hc1 as [<-|[]].
  destruct (Main.isNewline c0) eqn:Hn.
  - destruct Hc as [<-|[]]. reflexivity.
  - destruct Hc as [<-|[]]. rewrite Hf, Hn. reflexivity.
Qed.

(** The sanitized title holds none of the forbidden characters and no
    newline or carriage return, and it is trimmed. *)
Theorem sanitizedTitle_is_clean (newTitle : jsstring) :
  forallb (fun c => negb (Main.isForbidden c) && negb (Main.isNewline c))
          (Main.sanitizedTitle newTitle) = true
  /\ trim (Main.sanitizedTitle newTitle) = Main.sanitizedTitle newTitle.
Proof.
  split; [apply sanitizedTitle_clean | apply trim_idempotent].
Qed.

Lemma replaceAll_none (class : char -> bool) (by_ s : jsstring) :
  forallb (fun c => negb (class c)) s = true -> replaceAll class by_ s = s.
Proof.
  unfold replaceAll. induction s as [|c r IH]; simpl; intros H;
    [reflexivity|].
  apply andb_true_iff in H. destruct H as [Hc Hr].
  apply negb_true_iff in Hc. rewrite Hc, (IH Hr). reflexivity.
Qed.

(** Sanitizing a sanitized title changes nothing: the title a rename has
    applied is a fixed point. *)
Theorem sanitizedTitle_is_idempotent (newTitle : jsstring) :
  Main.sanitizedTitle (Main.sanitizedTitle newTitle)
  = Main.sanitizedTitle newTitle.
Proof.
  pose proof (sanitizedTitle_clean newTitle) as Hclean.
  unfold Main.sanitizedTitle at 1.
  rewrite (replaceAll_none Main.isForbidden).
  - rewrite (replaceAll_none Main.isNewline); [apply trim_idempotent|].
    rewrite forallb_forall in *. intros c Hc.
    specialize (Hclean c Hc). apply andb_true_iff in Hclean. tauto.
  - rewrite forallb_forall in *. intros c Hc.
    specialize (Hclean c Hc). apply andb_true_iff in Hclean. tauto.
Qed.

(* ================================================================== *)
(** ** The handlers: which files are read and renamed *)
(* ================================================================== *)

Lemma bind_eq {A B : Type} (m : M A) (k : A -> M B)
  (log log' : list event) (a : A) (c : completion B) :
  m = (log, Normal a) -> k a = (log', c) -> bind m k = (log ++ log', c).
Proof.
  intros -> Hk. unfold bind. rewrite Hk. reflexivity.
Qed.

Lemma renamed_app (l1 l2 : list event) :
  Handlers.renamed (l1 ++ l2) = Handlers.renamed l1 ++ Handlers.renamed l2.
Proof. apply flat_map_app. Qed.

Lemma readFiles_app (l1 l2 : list event) :
  Handlers.readFiles (l1 ++ l2)
  = Handlers.readFiles l1 ++ Handlers.readFiles l2.
Proof. apply flat_map_app. Qed.

Lemma extractedSentences_quiet
  (host : Collaborators) (settings : GeminiTitleGeneratorSettings)
  (noteContent : jsstring) :
  Handlers.renamed
    (calls (Main.extractedSentences host settings noteContent)) = []
  /\ Handlers.readFiles
       (calls (Main.extractedSentences host settings noteContent)) = [].
Proof.
  unfold Main.extractedSentences, call.
  destruct (newSummarizer host (Main.config settings)) as [[]|];
    [|split; reflexivity].
  destruct (summarize host (Main.config settings)
              (Main.processedNoteContent noteContent))
    as [[[|s l]|]|]; split; reflexivity.
Qed.

(** [generateTitle] completes, and reads and renames nothing. *)
Lemma generateTitle_quiet
  (host : Collaborators) (settings : GeminiTitleGeneratorSettings)
  (noteContent : jsstring) :
  exists log result,
    Main.generateTitle host settings noteContent = (log, Normal result)
    /\ Handlers.renamed log = [] /\ Handlers.readFiles log = [].
Proof.
  destruct (extractedSentences_quiet host settings noteContent) as [Hr Hf].
  destruct (generateTitle_cases host settings noteContent)
    as [[_ E] | [log [ex [_ [Hex [[_ [m E]] | [[_ [m E]]
                                 | [_ [text [fields [raw [_ [_ [_ [_ E]]]]]]]]]]]]]]];
    rewrite E; try rewrite Hex in Hr, Hf; unfold calls in *; simpl fst in *;
    eexists; eexists; (split; [reflexivity|]);
    rewrite ?renamed_app, ?readFiles_app, ?Hr, ?Hf; split; reflexivity.
Qed.

(** [updateNoteTitle] completes, reads nothing and renames at most the
    file it was given. *)
Lemma updateNoteTitle_quiet
  (host : Collaborators) (file : TFile) (newTitle : jsstring) :
  exists log result,
    Main.updateNoteTitle host file newTitle = (log, Normal result)
    /\ Handlers.readFiles log = []
    /\ (Handlers.renamed log = [] \/ Handlers.renamed log = [file]).
Proof.
  destruct (updateNoteTitle_cases host file newTitle)
    as [[m E] | [[_ E] | [_ E]]]; rewrite E; eexists; eexists;
    (split; [reflexivity|]); (split; [reflexivity|]);
    [left | right | right]; reflexivity.
Qed.

(** The end of every handler: the title, when there is one, is applied
    to [file]. *)
Lemma apply_title_quiet
  (host : Collaborators) (file : TFile) (generatedTitle : option jsstring) :
  exists log,
    match generatedTitle with
    | Some ((_ :: _) as t) => Main.updateNoteTitle host file t ;;; ret tt
    | _ => ret tt
    end = (log, Normal tt)
    /\ Handlers.readFiles log = []
    /\ (Handlers.renamed log = [] \/ Handlers.renamed log = [file]).
Proof.
  destruct generatedTitle as [[|c t]|];
    try (exists []; repeat split; left; reflexivity).
  destruct (updateNoteTitle_quiet host file (c :: t))
    as [log [b [E [Hf Hr]]]].
  exists log. unfold bind. rewrite E. simpl. rewrite app_nil_r. auto.
Qed.

(** The handler of the file menu never throws; it reads the file it was
    opened on, once, and renames no other file, and that one at most
    once. *)
Theorem onClick_touches_only_its_file
  (host : Collaborators) (settings : GeminiTitleGeneratorSettings)
  (file : TFile) :
  exists log,
    Main.onClick host settings file = (log, Normal tt)
    /\ Handlers.readFiles log = [file]
    /\ (Handlers.renamed log = [] \/ Handlers.renamed log = [file]).
Proof.
  unfold Main.onClick, call.
  destruct (cachedRead host file) as [noteContent|].
  - unfold bind at 1. cbv beta.
    destruct (isEmpty (trim noteContent)).
    + eexists. split; [reflexivity|]. split; [|left]; reflexivity.
    + destruct (generateTitle_quiet host settings noteContent)
        as [log [r [E [Hr Hf]]]].
      destruct (apply_title_quiet host file r) as [log' [E' [Hf' Hr']]].
      match goal with
      | |- context [bind (Main.generateTitle host settings noteContent) ?k] =>
          rewrite (bind_eq (Main.generateTitle host settings noteContent) k
                     log log' r (Normal tt) E E')
      end.
      eexists. split; [reflexivity|]. simpl.
      rewrite readFiles_app, renamed_app, Hr, Hf, Hf'. simpl.
      split; [reflexivity | exact Hr'].
  - eexists. split; [reflexivity|]. split; [|left]; reflexivity.
Qed.

(** A file that cannot be read, or that is blank, stops the handler of
    the file menu after one notice: nothing is summarized, the oracle is
    not asked, nothing is renamed. *)
Theorem onClick_unreadable_or_blank
  (host : Collaborators) (settings : GeminiTitleGeneratorSettings)
  (file : TFile)
  (Hread : cachedRead host file = None
           \/ exists noteContent,
                cachedRead host file = Some noteContent
                /\ isEmpty (trim noteContent) = true) :
  exists message,
    (message = Main.msgFileError file \/ message = Main.msgFileEmpty file)
    /\ Main.onClick host settings file
       = ([CachedRead file; Notice message], Normal tt).
Proof.
  unfold Main.onClick, call.
  destruct Hread as [H | [noteContent [H Hb]]]; rewrite H.
  - exists (Main.msgFileError file). split; [left|]; reflexivity.
  - exists (Main.msgFileEmpty file). split; [right; reflexivity|].
    unfold bind at 1. cbv beta. rewrite Hb. reflexivity.
Qed.

Lemma onClick_unreadable_or_blank_witness :
  exists message,
    (message = Main.msgFileError Example.note
     \/ message = Main.msgFileEmpty Example.note)
    /\ Main.onClick (Example.host None None (lit "  "))
         (Example.settings (lit "key") 8) Example.note
       = ([CachedRead Example.note; Notice message], Normal tt).
Proof.
  apply (onClick_unreadable_or_blank (Example.host None None (lit "  "))
           (Example.settings (lit "key") 8) Example.note).
  right. exists (lit "  "). split; reflexivity.
Defined.

(** A title that is white space only passes the test of the response:
    [generateTitle] gives the empty string, not [null], without a notice,
    and the handler of the file menu then stops without a rename and
    without telling the user. *)
Theorem blank_title_ends_silently
  (host : Collaborators) (settings : GeminiTitleGeneratorSettings)
  (file : TFile) (noteContent : jsstring) (log : list event)
  (extracted text raw : jsstring) (fields : list (jsstring * json))
  (Hkey : isEmpty (apiKey settings) = false)
  (Hread : cachedRead host file = Some noteContent)
  (Hnote : isEmpty (trim noteContent) = false)
  (Hextract : Main.extractedSentences host settings noteContent
              = (log, Normal extracted))
  (Hcontext : isEmpty (trim extracted) = false)
  (Hanswer : generateContent host (apiKey settings) (modelId settings)
               (Main.prompt extracted) = Some (Some (Text text)))
  (Hparse : JSON_parse host text = Some (JObject fields))
  (Htitle : assoc (lit "title") fields = Some (JString raw))
  (Hraw : isEmpty raw = false)
  (Hblank : trim raw = []) :
  Main.generateTitle host settings noteContent
  = (log ++ [GenerateContent (apiKey settings) (modelId settings)
               (Main.prompt extracted)],
     Normal (Some []))
  /\ Main.onClick host settings file
     = (CachedRead file :: Notice (Main.msgGenerating file)
        :: log ++ [GenerateContent (apiKey settings) (modelId settings)
                     (Main.prompt extracted)],
        Normal tt).
Proof.
  assert (Hr : Main.readResponse host (Some (Text text))
               = ([], Normal (Some []))).
  { simpl. rewrite Hparse. unfold Main.validTitle. simpl. rewrite Htitle.
    simpl. rewrite Hraw. simpl. rewrite Hblank. reflexivity. }
  pose proof (generateTitle_after_extraction host settings noteContent
                log [] extracted (Some (Text text)) (Some [])
                Hkey Hextract Hcontext Hanswer Hr) as Hg.
  split; [exact Hg|].
  unfold Main.onClick, call. rewrite Hread.
  unfold bind at 1. cbv beta. rewrite Hnote.
  unfold bind. simpl. rewrite Hg. simpl. rewrite app_nil_r. reflexivity.
Qed.

Lemma blank_title_ends_silently_witness :
  Main.generateTitle
    (Example.answering (Some (Some [lit "Cats are mammals."]))
       (Example.titleText (lit "  "))
       (JObject [(lit "title", JString (lit "  "))]) Example.pets)
    (Example.settings (lit "key") 8) Example.pets
  = ([Summarize (Main.config (Example.settings (lit "key") 8)) Example.pets]
     ++ [GenerateContent (lit "key") (lit "gemini-2.5-flash-preview-04-17")
           (Main.prompt (lit "Cats are mammals."))],
     Normal (Some []))
  /\ Main.onClick
       (Example.answering (Some (Some [lit "Cats are mammals."]))
          (Example.titleText (lit "  "))
          (JObject [(lit "title", JString (lit "  "))]) Example.pets)
       (Example.settings (lit "key") 8) Example.note
     = (CachedRead Example.note :: Notice (Main.msgGenerating Example.note)
        :: [Summarize (Main.config (Example.settings (lit "key") 8))
              Example.pets]
        ++ [GenerateContent (lit "key")
              (lit "gemini-2.5-flash-preview-04-17")
              (Main.prompt (lit "Cats are mammals."))],
        Normal tt).
Proof.
  apply (blank_title_ends_silently
           (Example.answering (Some (Some [lit "Cats are mammals."]))
              (Example.titleText (lit "  "))
              (JObject [(lit "title", JString (lit "  "))]) Example.pets)
           (Example.settings (lit "key") 8) Example.note Example.pets
           [Summarize (Main.config (Example.settings (lit "key") 8))
              Example.pets]
           (lit "Cats are mammals.") (Example.titleText (lit "  "))
           (lit "  ") [(lit "title", JString (lit "  "))]).
  - reflexivity.
  - reflexivity.
  - vm_compute. reflexivity.
  - vm_compute. reflexivity.
  - vm_compute. reflexivity.
  - reflexivity.
  - vm_compute. reflexivity.
  - vm_compute. reflexivity.
  - reflexivity.
  - reflexivity.
Defined.

(* ================================================================== *)
(** ** The command and the batch *)
(* ================================================================== *)

(** The command never throws, although its callback catches nothing; it
    reads no file, and the only file it can rename is the one its view
    shows once the title has come back. *)
Theorem editorCallback_renames_the_file_in_view
  (host : Collaborators) (settings : GeminiTitleGeneratorSettings)
  (editorValue : jsstring) (viewFile viewFileAfter : option TFile) :
  exists log,
    Handlers.editorCallback settings host editorValue viewFile viewFileAfter
    = (log, Normal tt)
    /\ Handlers.readFiles log = []
    /\ (Handlers.renamed log = []
        \/ exists file,
             viewFileAfter = Some file /\ Handlers.renamed log = [file]).
Proof.
  unfold Handlers.editorCallback.
  destruct viewFile as [shown|];
    [|eexists; split; [reflexivity|]; split; [|left]; reflexivity].
  destruct (isEmpty (trim editorValue));
    [eexists; split; [reflexivity|]; split; [|left]; reflexivity|].
  destruct (generateTitle_quiet host settings editorValue)
    as [log [r [E [Hr Hf]]]].
  assert (Htail : exists log',
             match r, viewFileAfter with
             | Some ((_ :: _) as t), Some file =>
                 Main.updateNoteTitle host file t ;;; ret tt
             | _, _ => ret tt
             end = (log', Normal tt)
             /\ Handlers.readFiles log' = []
             /\ (Handlers.renamed log' = []
                 \/ exists file, viewFileAfter = Some file
                                 /\ Handlers.renamed log' = [file])).
  { destruct r as [[|c t]|];
      try (exists []; repeat split; left; reflexivity).
    destruct viewFileAfter as [file|];
      [|exists []; repeat split; left; reflexivity].
    destruct (updateNoteTitle_quiet host file (c :: t))
      as [log' [b [E' [Hf' Hr']]]].
    exists log'. unfold bind. rewrite E'. simpl. rewrite app_nil_r.
    split; [reflexivity|]. split; [exact Hf'|].
    destruct Hr' as [Hr' | Hr']; [left; exact Hr'|].
    right. exists file. auto. }
  destruct Htail as [log' [E' [Hf' Hr']]].
  match goal with
  | |- context [bind (Main.generateTitle host settings editorValue) ?k] =>
      rewrite (bind_eq (Main.generateTitle host settings editorValue) k
                 log log' r (Normal tt) E E')
  end.
  eexists. split; [reflexivity|]. simpl.
  rewrite readFiles_app, renamed_app, Hr, Hf, Hf'. simpl.
  split; [reflexivity | exact Hr'].
Qed.

(** The mapper of the batch never throws and keeps the count; it reads
    its file once and renames no other file. *)
Lemma batchMapper_quiet
  (settings : GeminiTitleGeneratorSettings) (host : Collaborators)
  (count : nat) (mdFile : TFile) :
  exists log,
    Handlers.batchMapper settings host count mdFile = (log, Normal count)
    /\ Handlers.readFiles log = [mdFile]
    /\ (Handlers.renamed log = [] \/ Handlers.renamed log = [mdFile]).
Proof.
  unfold Handlers.batchMapper, call.
  destruct (cachedRead host mdFile) as [noteContent|];
    [|eexists; split; [reflexivity|]; split; [|left]; reflexivity].
  unfold bind at 1. cbv beta.
  destruct (isEmpty (trim noteContent));
    [eexists; split; [reflexivity|]; split; [|left]; reflexivity|].
  destruct (generateTitle_quiet host settings noteContent)
    as [log [r [E [Hr Hf]]]].
  assert (Htail : exists log',
             match r with
             | Some ((_ :: _) as t) =>
                 Main.updateNoteTitle host mdFile t ;;; ret count
             | _ => ret count
             end = (log', Normal count)
             /\ Handlers.readFiles log' = []
             /\ (Handlers.renamed log' = []
                 \/ Handlers.renamed log' = [mdFile])).
  { destruct r as [[|c t]|];
      try (exists []; repeat split; left; reflexivity).
    destruct (updateNoteTitle_quiet host mdFile (c :: t))
      as [log' [b [E' [Hf' Hr']]]].
    exists log'. unfold bind. rewrite E'. simpl. rewrite app_nil_r. auto. }
  destruct Htail as [log' [E' [Hf' Hr']]].
  match goal with
  | |- context [bind (Main.generateTitle host settings noteContent) ?k] =>
      rewrite (bind_eq (Main.generateTitle host settings noteContent) k
                 log log' r (Normal count) E E')
  end.
  eexists. split; [reflexivity|]. simpl.
  rewrite readFiles_app, renamed_app, Hr, Hf, Hf'. simpl.
  split; [reflexivity | exact Hr'].
Qed.

Lemma pMap_batch
  (settings : GeminiTitleGeneratorSettings)
  (world : list event -> Collaborators) (files : list TFile) :
  forall (done : list event) (count : nat),
  exists log,
    Handlers.pMap (Handlers.batchMapper settings) world done count files
    = (log, Normal count)
    /\ Handlers.readFiles log = files
    /\ incl (Handlers.renamed log) files
    /\ (length (Handlers.renamed log) <= length files)%nat.
Proof.
  induction files as [|file rest IH]; intros done count; simpl.
  - exists []. repeat split; [apply incl_refl | apply le_n].
  - destruct (batchMapper_quiet settings (world done) count file)
      as [log [E [Hf Hr]]].
    rewrite E.
    destruct (IH (done ++ log) count) as [log' [E' [Hf' [Hi Hl]]]].
    rewrite E'. exists (log ++ log'). split; [reflexivity|].
    rewrite readFiles_app, renamed_app, Hf, Hf', length_app.
    split; [reflexivity|].
    destruct Hr as [-> | ->]; simpl; split;
      try (apply incl_tl; exact Hi); try lia.
    apply incl_cons; [left; reflexivity | apply incl_tl; exact Hi].
Qed.

(** The batch over the selected files: whatever happens to a file (it
    cannot be read, it is blank, the oracle fails, the rename is
    rejected), every markdown file of the selection is read, once and in
    the order of the selection; only these files are renamed, with no
    more rename calls than files; and the batch ends, without throwing,
    with the notice that it has finished. *)
Theorem batch_reaches_every_markdown_file
  (settings : GeminiTitleGeneratorSettings)
  (world : list event -> Collaborators)
  (files : list Handlers.TAbstractFile)
  (Hsome : Handlers.markdownFiles files <> []) :
  exists log,
    Handlers.batchOnClick settings world files
    = (Notice (Handlers.msgGeneratingTitles
                 (length (Handlers.markdownFiles files)))
       :: log ++ [Notice Handlers.msgFinished],
       Normal tt)
    /\ Handlers.readFiles log = Handlers.markdownFiles files
    /\ incl (Handlers.renamed log) (Handlers.markdownFiles files)
    /\ (length (Handlers.renamed log)
        <= length (Handlers.markdownFiles files))%nat.
Proof.
  unfold Handlers.batchOnClick.
  destruct (Handlers.markdownFiles files) as [|f r] eqn:Emd;
    [congruence|].
  cbn [length Nat.eqb].
  destruct (pMap_batch settings world (f :: r)
              [Notice (Handlers.msgGeneratingTitles (S (length r)))] 0%nat)
    as [log [E H]].
  exists log. split; [|exact H].
  unfold bind, notice, emit. rewrite E. reflexivity.
Qed.

Lemma batch_reaches_every_markdown_file_witness :
  exists log,
    Handlers.batchOnClick (Example.settings (lit "key") 8)
      (fun _ => Example.refusing)
      [Handlers.AFolder (lit "Notes"); Handlers.AFile Example.note]
    = (Notice (Handlers.msgGeneratingTitles 1)
       :: log ++ [Notice Handlers.msgFinished],
       Normal tt)
    /\ Handlers.readFiles log = [Example.note]
    /\ incl (Handlers.renamed log) [Example.note]
    /\ (length (Handlers.renamed log) <= 1)%nat.
Proof.
  apply (batch_reaches_every_markdown_file (Example.settings (lit "key") 8)
           (fun _ => Example.refusing)
           [Handlers.AFolder (lit "Notes"); Handlers.AFile Example.note]).
  vm_compute. discriminate.
Defined.

(* ================================================================== *)
(** ** The automatic update of untitled notes *)
(* ================================================================== *)

(** [handleActiveLeafChange] does nothing but remember the new file when
    the automatic update is off, when no file was active before, when the
    file that was active is no longer in the vault, or when its name does
    not start with untitled. *)
Theorem leaf_change_does_nothing
  (settings : GeminiTitleGeneratorSettings)
  (toLowerCase : jsstring -> jsstring) (host : Collaborators)
  (getAbstractFileByPath : jsstring -> option Handlers.TAbstractFile)
  (lastActiveFile : option TFile) (newLeaf : option Handlers.WorkspaceLeaf)
  (Hidle : autoUpdateUntitledNotes settings = false
           \/ lastActiveFile = None
           \/ exists previousFile,
                lastActiveFile = Some previousFile
                /\ (getAbstractFileByPath (path previousFile) = None
                    \/ Handlers.isUntitled toLowerCase previousFile = false)) :
  Handlers.handleActiveLeafChange settings toLowerCase host
    getAbstractFileByPath lastActiveFile newLeaf
  = (Handlers.leafFile newLeaf, ([], Normal tt)).
Proof.
  unfold Handlers.handleActiveLeafChange. f_equal.
  destruct Hidle as [H | [H | [previousFile [-> [H | H]]]]].
  - rewrite H. destruct lastActiveFile; reflexivity.
  - rewrite H. reflexivity.
  - rewrite H. destruct (autoUpdateUntitledNotes settings); reflexivity.
  - rewrite H. destruct (autoUpdateUntitledNotes settings); [|reflexivity].
    destruct (getAbstractFileByPath (path previousFile)); reflexivity.
Qed.

Lemma leaf_change_does_nothing_witness :
  Handlers.handleActiveLeafChange (Example.settings (lit "key") 8)
    (fun s => s) Example.refusing (fun _ => None)
    (Some Example.note)
    (Some {| Handlers.view := Handlers.MarkdownView (Some Example.note) |})
  = (Some Example.note, ([], Normal tt)).
Proof.
  apply (leaf_change_does_nothing (Example.settings (lit "key") 8)
           (fun s => s) Example.refusing (fun _ => None)
           (Some Example.note)
           (Some {| Handlers.view :=
                      Handlers.MarkdownView (Some Example.note) |})).
  left. reflexivity.
Defined.

(** [handleActiveLeafChange] never throws; it always remembers the file
    of the new leaf, and the only file it can read or rename is the one
    that was active before, never the one that becomes active. *)
Theorem leaf_change_touches_the_previous_file
  (settings : GeminiTitleGeneratorSettings)
  (toLowerCase : jsstring -> jsstring) (host : Collaborators)
  (getAbstractFileByPath : jsstring -> option Handlers.TAbstractFile)
  (lastActiveFile : option TFile) (newLeaf : option Handlers.WorkspaceLeaf) :
  exists log,
    Handlers.handleActiveLeafChange settings toLowerCase host
      getAbstractFileByPath lastActiveFile newLeaf
    = (Handlers.leafFile newLeaf, (log, Normal tt))
    /\ (Handlers.readFiles log = []
        \/ exists previousFile,
             lastActiveFile = Some previousFile
             /\ Handlers.readFiles log = [previousFile])
    /\ (Handlers.renamed log = []
        \/ exists previousFile,
             lastActiveFile = Some previousFile
             /\ Handlers.renamed log = [previousFile]).
Proof.
  unfold Handlers.handleActiveLeafChange.
  destruct lastActiveFile as [previousFile|];
    [|eexists; split; [reflexivity|]; split; left; reflexivity].
  destruct (autoUpdateUntitledNotes settings); cbn [negb];
    [|eexists; split; [reflexivity|]; split; left; reflexivity].
  destruct (getAbstractFileByPath (path previousFile));
    [|eexists; split; [reflexivity|]; split; left; reflexivity].
  destruct (Handlers.isUntitled toLowerCase previousFile);
    [|eexists; split; [reflexivity|]; split; left; reflexivity].
  unfold call.
  destruct (cachedRead host previousFile) as [noteContent|].
  - unfold bind at 1 2. cbv beta. unfold notice at 1, emit. cbv iota beta.
    destruct (isEmpty (trim noteContent)).
    + eexists. split; [reflexivity|]. simpl.
      split; [right; exists previousFile; auto | left; reflexivity].
    + destruct (generateTitle_quiet host settings noteContent)
        as [log [r [E [Hr Hf]]]].
      destruct (apply_title_quiet host previousFile r)
        as [log' [E' [Hf' Hr']]].
      match goal with
      | |- context [bind (Main.generateTitle host settings noteContent) ?k] =>
          rewrite (bind_eq (Main.generateTitle host settings noteContent) k
                     log log' r (Normal tt) E E')
      end.
      eexists. split; [reflexivity|]. simpl.
      rewrite readFiles_app, renamed_app, Hr, Hf, Hf'. simpl.
      split; [right; exists previousFile; auto|].
      destruct Hr' as [Hr' | Hr']; [left; exact Hr'|].
      right. exists previousFile. auto.
  - eexists. split; [reflexivity|]. simpl.
    split; [right; exists previousFile; auto | left; reflexivity].
Qed.

Lemma accepted_app (l1 l2 : list event) :
  Handlers.accepted (l1 ++ l2)
  = (Handlers.accepted l1 + Handlers.accepted l2)%nat.
Proof.
  unfold Handlers.accepted. rewrite filter_app, length_app. reflexivity.
Qed.

Lemma extractedSentences_accepts_nothing
  (host : Collaborators) (settings : GeminiTitleGeneratorSettings)
  (noteContent : jsstring) :
  Handlers.accepted
    (calls (Main.extractedSentences host settings noteContent)) = 0%nat.
Proof.
  unfold Main.extractedSentences, call.
  destruct (newSummarizer host (Main.config settings)) as [[]|];
    [|vm_compute; reflexivity].
  destruct (summarize host (Main.config settings)
              (Main.processedNoteContent noteContent))
    as [[[|s l]|]|]; vm_compute; reflexivity.
Qed.

Lemma readResponse_accepts_nothing
  (host : Collaborators) (result : option response) :
  Handlers.accepted (calls (Main.readResponse host result)) = 0%nat.
Proof.
  destruct result as [[text|]|]; simpl; try (vm_compute; reflexivity).
  destruct (JSON_parse host text) as [j|]; simpl;
    try (vm_compute; reflexivity).
  destruct (Main.validTitle j); vm_compute; reflexivity.
Qed.

(** None of the notices of [generateTitle] is the notice of an accepted
    rename. *)
Lemma generateTitle_accepts_nothing
  (host : Collaborators) (settings : GeminiTitleGeneratorSettings)
  (noteContent : jsstring) :
  Handlers.accepted (calls (Main.generateTitle host settings noteContent))
  = 0%nat.
Proof.
  pose proof (extractedSentences_accepts_nothing host settings noteContent)
    as Hx.
  unfold Main.generateTitle.
  destruct (isEmpty (apiKey settings)); [vm_compute; reflexivity|].
  destruct (extractedSentences_completes host settings noteContent)
    as [log [extracted [E _]]].
  rewrite E in *. unfold calls in Hx. simpl fst in Hx.
  unfold Handlers.accepted in *.
  unfold bind at 1. cbv beta.
  destruct (isEmpty extracted || (length (trim extracted) =? 0)%nat).
  - destruct (length (trim noteContent) =? 0)%nat; unfold calls; simpl;
      rewrite filter_app, length_app, Hx; vm_compute; reflexivity.
  - unfold call.
    destruct (generateContent host (apiKey settings) (modelId settings)
                (Main.prompt extracted)) as [result|].
    + pose proof (readResponse_accepts_nothing host result) as Hr.
      unfold Handlers.accepted in Hr. unfold bind.
      destruct (Main.readResponse host result) as [log' [v|]];
        unfold calls in *; simpl in *;
        rewrite ?filter_app, ?length_app, ?Hx, ?Hr; simpl;
        rewrite ?filter_app, ?length_app, ?Hx, ?Hr; reflexivity.
    + unfold calls. simpl. rewrite !filter_app, !length_app, Hx. reflexivity.
Qed.

(** [updateNoteTitle] shows the notice of an accepted rename exactly when
    it gives [true]. *)
Lemma updateNoteTitle_accepted
  (host : Collaborators) (file : TFile) (newTitle : jsstring) :
  exists log result,
    Main.updateNoteTitle host file newTitle = (log, Normal result)
    /\ Handlers.accepted log = (if result then 1 else 0)%nat.
Proof.
  unfold Main.updateNoteTitle.
  destruct (isEmpty newTitle || Js.eqb (trim newTitle) []);
    [eexists; eexists; split; [reflexivity | vm_compute; reflexivity]|].
  destruct (isEmpty (Main.sanitizedTitle newTitle));
    [eexists; eexists; split; [reflexivity | vm_compute; reflexivity]|].
  destruct (Js.eqb (path file) (Main.newPath file newTitle));
    [eexists; eexists; split; [reflexivity | vm_compute; reflexivity]|].
  unfold call.
  destruct (renameFile host file (Main.newPath file newTitle)) as [[]|];
    eexists; eexists; (split; [reflexivity | vm_compute; reflexivity]).
Qed.

(** The startup mapper never throws; it adds to the count the accepted
    renames it has told the user of, and reads at most one file. *)
Lemma startupMapper_counts
  (settings : GeminiTitleGeneratorSettings)
  (toLowerCase : jsstring -> jsstring) (vault : Handlers.Vault)
  (count : nat) (fileToUpdate : TFile) :
  exists log count',
    Handlers.startupMapper settings toLowerCase vault count fileToUpdate
    = (log, Normal count')
    /\ count' = (count + Handlers.accepted log)%nat
    /\ (length (Handlers.readFiles log) <= 1)%nat.
Proof.
  unfold Handlers.startupMapper.
  destruct (snd vault (path fileToUpdate)) as [[current|folder]|];
    try (exists [], count; repeat split;
         [unfold Handlers.accepted; simpl; lia | simpl; lia]).
  destruct (Handlers.isUntitled toLowerCase current); cbn [negb];
    [|exists [], count; repeat split;
      [unfold Handlers.accepted; simpl; lia | simpl; lia]].
  unfold call.
  destruct (cachedRead (fst vault) current) as [noteContent|].
  - unfold bind at 1 2. cbv beta. unfold notice at 1, emit. cbv iota beta.
    destruct (isEmpty (trim noteContent)).
    + eexists. exists count. split; [reflexivity|].
      split; [unfold Handlers.accepted; simpl; lia | simpl; lia].
    + destruct (generateTitle_quiet (fst vault) settings noteContent)
        as [log [r [E [_ Hf]]]].
      pose proof (generateTitle_accepts_nothing (fst vault) settings
                    noteContent) as Ha.
      rewrite E in Ha. unfold calls in Ha. simpl fst in Ha.
      assert (Htail : exists log' count',
                 match r with
                 | Some ((_ :: _) as t) =>
                     wasUpdated <-
                       Main.updateNoteTitle (fst vault) current t ;;
                     if wasUpdated then ret (S count) else ret count
                 | _ => ret count
                 end = (log', Normal count')
                 /\ count' = (count + Handlers.accepted log')%nat
                 /\ Handlers.readFiles log' = []).
      { destruct r as [[|c t]|];
          try (exists [], count; repeat split;
               unfold Handlers.accepted; simpl; lia).
        destruct (updateNoteTitle_accepted (fst vault) current (c :: t))
          as [log' [b [E' Hb]]].
        destruct (updateNoteTitle_quiet (fst vault) current (c :: t))
          as [log2 [b2 [E2 [Hf2 _]]]].
        rewrite E' in E2. inversion E2; subst log2 b2.
        unfold bind. rewrite E'.
        destruct b.
        - exists log', (S count).
          split; [simpl; rewrite app_nil_r; reflexivity|].
          split; [rewrite Hb; lia | exact Hf2].
        - exists log', count.
          split; [simpl; rewrite app_nil_r; reflexivity|].
          split; [rewrite Hb; lia | exact Hf2]. }
      destruct Htail as [log' [count' [E' [Hc Hf']]]].
      match goal with
      | |- context [bind (Main.generateTitle (fst vault) settings
                            noteContent) ?k] =>
          rewrite (bind_eq (Main.generateTitle (fst vault) settings
                              noteContent) k
                     log log' r (Normal count') E E')
      end.
      eexists. exists count'. split; [reflexivity|]. split.
      * subst count'. unfold Handlers.accepted in *. simpl.
        rewrite filter_app, length_app, Ha. lia.
      * simpl. rewrite readFiles_app, Hf, Hf'. simpl. lia.
  - eexists. exists count. split; [reflexivity|].
    split; [unfold Handlers.accepted; simpl; lia | simpl; lia].
Qed.

Lemma pMap_startup
  (settings : GeminiTitleGeneratorSettings)
  (toLowerCase : jsstring -> jsstring)
  (world : list event -> Handlers.Vault) (files : list TFile) :
  forall (done : list event) (count : nat),
  exists log count',
    Handlers.pMap (Handlers.startupMapper settings toLowerCase) world
      done count files
    = (log, Normal count')
    /\ count' = (count + Handlers.accepted log)%nat
    /\ (length (Handlers.readFiles log) <= length files)%nat.
Proof.
  induction files as [|file rest IH]; intros done count; simpl.
  - exists [], count. repeat split; unfold Handlers.accepted; simpl; lia.
  - destruct (startupMapper_counts settings toLowerCase (world done)
                count file) as [log [count1 [E [Hc Hf]]]].
    rewrite E.
    destruct (IH (done ++ log) count1) as [log' [count2 [E' [Hc' Hf']]]].
    rewrite E'. exists (log ++ log'), count2. split; [reflexivity|].
    rewrite accepted_app, readFiles_app, length_app. split; lia.
Qed.

(** The startup run never throws. The number in its closing notice is
    the number of accepted renames the user has been told of during the
    run, and there is no closing notice when there was none; the run
    reads no more files than untitled notes are open, and does nothing
    when the automatic update is off. *)
Theorem startup_counts_the_accepted_renames
  (settings : GeminiTitleGeneratorSettings)
  (toLowerCase : jsstring -> jsstring)
  (world : list event -> Handlers.Vault)
  (markdownLeaves : list Handlers.WorkspaceLeaf) :
  exists log,
    Handlers.onLayoutReady settings toLowerCase world markdownLeaves
    = (log ++ (if (0 <? Handlers.accepted log)%nat
               then [Notice (Handlers.msgUpdatedCount
                               (Handlers.accepted log))]
               else []),
       Normal tt)
    /\ (length (Handlers.readFiles log)
        <= length (Handlers.untitledOpenFiles toLowerCase markdownLeaves))%nat
    /\ (autoUpdateUntitledNotes settings = false -> log = []).
Proof.
  unfold Handlers.onLayoutReady.
  destruct (autoUpdateUntitledNotes settings);
    [|exists []; repeat split; simpl; lia].
  destruct (0 <? length (Handlers.untitledOpenFiles toLowerCase
                           markdownLeaves))%nat;
    [|exists []; split; [reflexivity|]; split; [simpl; lia | discriminate]].
  destruct (pMap_startup settings toLowerCase world
              (Handlers.untitledOpenFiles toLowerCase markdownLeaves)
              [] 0%nat) as [log [count [E [Hc Hf]]]].
  simpl in Hc. subst count.
  exists log. unfold bind. rewrite E.
  split; [|split; [exact Hf | discriminate]].
  destruct (0 <? Handlers.accepted log)%nat; simpl;
    rewrite ?app_nil_r; reflexivity.
Qed.

(* ================================================================== *)
(** ** The first-sentences variant: what reaches the oracle *)
(* ================================================================== *)

Lemma valid_sentences_clean (noteContent : jsstring) :
  Forall (fun s => isEmpty s = false
                   /\ trim s = s
                   /\ forallb (fun c => negb (FirstSentences.isTerminator c)) s
                      = true
                   /\ (3 <= length (splitWhiteSpace s))%nat)
         (FirstSentences.validSentences noteContent).
Proof.
  apply Forall_forall. intros s Hs.
  unfold FirstSentences.validSentences in Hs.
  apply filter_In in Hs. destruct Hs as [Hs Hwords].
  apply filter_In in Hs. destruct Hs as [Hs Hlen].
  apply in_map_iff in Hs. destruct Hs as [p [<- Hp]].
  split; [|split; [|split]].
  - destruct (trim p); [discriminate Hlen | reflexivity].
  - apply trim_idempotent.
  - apply trim_forallb.
    destruct (splitOn_spec FirstSentences.isTerminator noteContent)
      as [_ [_ Hfree]].
    rewrite forallb_forall in Hfree. exact (Hfree p Hp).
  - apply Nat.leb_le. exact Hwords.
Qed.

(** Every valid sentence is trimmed and not empty, holds no full stop,
    question mark or exclamation mark, and has three words or more. *)
Theorem valid_sentences_are_clean (noteContent : jsstring) :
  Forall (fun s => isEmpty s = false
                   /\ trim s = s
                   /\ forallb (fun c => negb (FirstSentences.isTerminator c)) s
                      = true
                   /\ (3 <= length (splitWhiteSpace s))%nat)
         (FirstSentences.validSentences noteContent).
Proof.
  exact (valid_sentences_clean noteContent).
Qed.






(** A sentence count of zero selects nothing: for a note with valid
    sentences the context is empty, and [generateTitle] stops with the
    notice that no content could be extracted, before any oracle call. *)
Theorem zero_sentence_count_extracts_nothing
  (host : Collaborators) (settings : GeminiTitleGeneratorSettings)
  (noteContent : jsstring)
  (Hkey : isEmpty (apiKey settings) = false)
  (HK : numberOfSentences settings = 0%Z)
  (Hvalid : FirstSentences.validSentences noteContent <> []) :
  FirstSentences.generateTitle host settings noteContent
  = ([Notice FirstSentences.msgNoContent], Normal None).
Proof.
  unfold FirstSentences.generateTitle, FirstSentences.extractedSentences,
    FirstSentences.sentencesToUse, slice0.
  rewrite Hkey, HK.
  destruct (FirstSentences.validSentences noteContent) as [|s0 more];
    [congruence|].
  reflexivity.
Qed.

Lemma zero_sentence_count_extracts_nothing_witness :
  FirstSentences.generateTitle Example.refusing
    (Example.settings (lit "key") 0) Example.pets
  = ([Notice FirstSentences.msgNoContent], Normal None).
Proof.
  apply (zero_sentence_count_extracts_nothing Example.refusing
           (Example.settings (lit "key") 0) Example.pets).
  - reflexivity.
  - reflexivity.
  - vm_compute. discriminate.
Defined.

(** The first-sentences variant never throws, and of its collaborators
    it calls only the oracle, at most once: it summarizes, reads and
    renames nothing. *)
Theorem first_sentences_call_budget
  (host : Collaborators) (settings : GeminiTitleGeneratorSettings)
  (noteContent : jsstring) :
  exists log result,
    FirstSentences.generateTitle host settings noteContent
    = (log, Normal result)
    /\ (filter Handlers.isExternal log = []
        \/ exists extracted,
             filter Handlers.isExternal log
             = [GenerateContent (apiKey settings) (modelId settings)
                  (Main.prompt extracted)]).
Proof.
  unfold FirstSentences.generateTitle.
  destruct (isEmpty (apiKey settings));
    [eexists; eexists; split; [reflexivity | left; reflexivity]|].
  assert (Hstep : exists log1 step1,
             FirstSentences.extractedSentences settings noteContent
             = (log1, Normal step1)
             /\ filter Handlers.isExternal log1 = []).
  { unfold FirstSentences.extractedSentences.
    destruct (0 <? length (FirstSentences.validSentences noteContent))%nat;
      [eexists; eexists; split; reflexivity|].
    destruct (length (trim noteContent) =? 0)%nat;
      eexists; eexists; split; reflexivity. }
  destruct Hstep as [log1 [step1 [E H1]]].
  rewrite E. unfold bind at 1. cbv beta iota.
  destruct step1 as [extracted|].
  - destruct (isEmpty extracted || (length (trim extracted) =? 0)%nat).
    + eexists; eexists. split; [reflexivity|]. left.
      simpl. rewrite filter_app, H1. reflexivity.
    + unfold call.
      destruct (generateContent host (apiKey settings) (modelId settings)
                  (Main.prompt extracted)) as [result|].
      * unfold bind.
        destruct (readResponse_cases host result)
          as [Hr | [[m Hr] | [text [fields [raw [_ [_ [_ [_ Hr]]]]]]]]];
          rewrite Hr; eexists; eexists; (split; [reflexivity|]);
          right; exists extracted; simpl;
          rewrite !filter_app, H1; reflexivity.
      * eexists; eexists. split; [reflexivity|].
        right. exists extracted. simpl.
        rewrite !filter_app, H1. reflexivity.
  - eexists; eexists. split; [reflexivity|]. left.
    simpl. rewrite app_nil_r. exact H1.
Qed.
